(** * The planner service of planner_py/planner_server.py

    A shallow embedding of [PlannerServicer.Plan] and of the protobuf
    messages it reads and writes, followed by the properties of the
    planning contract, each settled against the embedded code; then
    [serve], and the sorting and Fibonacci workloads the planner's tasks
    run, with the properties their code shows. *)

From Stdlib Require Import List String ZArith QArith Lia Bool Arith.
From Stdlib Require Import Permutation PeanoNat Lqa.
From Stdlib Require Import Floats.SpecFloat.
From Stdlib Require Import Sorting.Sorted.
Import ListNotations.

Close Scope Q_scope.
Open Scope string_scope.
Open Scope nat_scope.

(** ** The Python and protobuf runtime the method relies on *)

Module Py.

(** The exceptions a planning call can end with. *)
Inductive exn : Set :=
| ValueError
| OverflowError
| IndexError.

(** A call either returns a value or raises. *)
Inductive result (A : Type) : Type :=
| Ok (a : A)
| Raise (e : exn).

Arguments Ok {A} a.
Arguments Raise {A} e.

Definition bind {A B : Type} (c : result A) (k : A -> result B) : result B :=
  match c with
  | Ok a => k a
  | Raise e => Raise e
  end.

(** The value of a finite float, as a fraction [num / den] with
    [den] a power of two. *)
Definition float_num (s : bool) (m : positive) (e : Z) : Z :=
  ((if s then Z.neg m else Z.pos m) * 2 ^ Z.max e 0)%Z.

Definition float_den (e : Z) : Z := (2 ^ Z.max (- e) 0)%Z.

(** [int(x)] on a float: truncation toward zero; [int(nan)] raises
    ValueError and [int(inf)] raises OverflowError. *)
Definition int (x : spec_float) : result Z :=
  match x with
  | S754_zero _ => Ok 0%Z
  | S754_infinity _ => Raise OverflowError
  | S754_nan => Raise ValueError
  | S754_finite s m e => Ok (Z.quot (float_num s m e) (float_den e))
  end.

(** [l[i]] for a non-negative index. *)
Definition getitem {A : Type} (l : list A) (i : nat) : result A :=
  match nth_error l i with
  | Some x => Ok x
  | None => Raise IndexError
  end.

(** [enumerate(l)], counting from [start]. *)
Fixpoint enumerate_from {A : Type} (start : nat) (l : list A) : list (nat * A) :=
  match l with
  | [] => []
  | x :: l' => (start, x) :: enumerate_from (S start) l'
  end.

Definition enumerate {A : Type} (l : list A) : list (nat * A) :=
  enumerate_from 0 l.

(** A [for] loop whose body updates the state [s] and may raise. *)
Fixpoint for_ {A S : Type} (l : list A) (body : S -> A -> result S) (s : S)
  : result S :=
  match l with
  | [] => Ok s
  | x :: l' => bind (body s x) (for_ l' body)
  end.

(** protobuf's range check of an integer field on assignment: a value
    outside [_MIN, _MAX] raises ValueError. *)
Record IntValueChecker : Set := mkIntValueChecker { _MIN : Z; _MAX : Z }.

Definition CheckValue (c : IntValueChecker) (v : Z) : result Z :=
  if ((_MIN c <=? v) && (v <=? _MAX c))%Z then Ok v else Raise ValueError.

Definition Int32ValueChecker : IntValueChecker :=
  mkIntValueChecker (- 2147483648) 2147483647.
Definition Int64ValueChecker : IntValueChecker :=
  mkIntValueChecker (- 9223372036854775808) 9223372036854775807.
Definition Uint32ValueChecker : IntValueChecker :=
  mkIntValueChecker 0 4294967295.
Definition Uint64ValueChecker : IntValueChecker :=
  mkIntValueChecker 0 18446744073709551615.

End Py.

Notation "x <- c ;; k" := (Py.bind c (fun x => k))
  (at level 61, c at next level, right associativity).

(** ** The messages of scheduler_pb2 *)

(** Modelled from the spec: the message declarations of scheduler_pb2 are
    generated code that is not among the sources. [id] and [estimated_sec]
    are the fields [Plan] reads ([estimated_sec] a double, since the code
    truncates it with [int]); the three resource requests are the fields the
    design adds to a task, in the units of a worker's capacity. *)
Module Task.
Record t : Set := mk {
  id : string;
  estimated_sec : spec_float;
  cpu_request : Q;
  memory_request : Q;
  gpu_request : Q
}.
End Task.

(** Modelled from the spec: [id] is the field [Plan] reads; the capacity is
    the static cpu, memory and gpu ceiling the design gives a worker. *)
Module Worker.
Record t : Set := mk {
  id : string;
  cpu_capacity : Q;
  memory_capacity : Q;
  gpu_capacity : Q
}.
End Worker.

Module PlanRequest.
Record t : Set := mk {
  tasks : list Task.t;
  workers : list Worker.t
}.
End PlanRequest.

Module Assignment.
Record t : Set := mk {
  task_id : string;
  worker_id : string;
  start_unix : Z;
  est_duration_sec : Z
}.

(** A message just added: every field at its default. *)
Definition default : t := mk "" "" 0 0.

Definition set_task_id (a : t) (v : string) : t :=
  mk v (worker_id a) (start_unix a) (est_duration_sec a).
Definition set_worker_id (a : t) (v : string) : t :=
  mk (task_id a) v (start_unix a) (est_duration_sec a).
Definition set_start_unix (a : t) (v : Z) : t :=
  mk (task_id a) (worker_id a) v (est_duration_sec a).
Definition set_est_duration_sec (a : t) (v : Z) : t :=
  mk (task_id a) (worker_id a) (start_unix a) v.
End Assignment.

(** Modelled from the spec: [plan_id], [status_message] and [assignments] are
    the fields [Plan] writes; [unplaced_task_id] is the list the design's plan
    carries beside its assignments. [Plan] never writes it, so it keeps the
    default of a repeated field, the empty list. *)
Module PlanResponse.
Record t : Set := mk {
  plan_id : string;
  status_message : string;
  assignments : list Assignment.t;
  unplaced_task_id : list string
}.

Definition default : t := mk "" "" [] [].

Definition set_plan_id (r : t) (v : string) : t :=
  mk v (status_message r) (assignments r) (unplaced_task_id r).
Definition set_status_message (r : t) (v : string) : t :=
  mk (plan_id r) v (assignments r) (unplaced_task_id r).
(** [r.assignments.add()] followed by the writes to the new entry. *)
Definition add_assignment (r : t) (a : Assignment.t) : t :=
  mk (plan_id r) (status_message r) (assignments r ++ [a]) (unplaced_task_id r).
End PlanResponse.

(** ** PlannerServicer.Plan *)

(** The servicer object holds no state. *)
Inductive PlannerServicer : Set := PlannerServicer_new.

Section Planner.

(** The gRPC call context; [Plan] never looks at it. *)
Context {ServicerContext : Type}.

(** The range of the integer field [Assignment.est_duration_sec], which
    the absent message declaration fixes. *)
Variable est_duration_sec_checker : Py.IntValueChecker.

(** The entry the loop body fills in for the [i]-th task [t]: added with
    every field at its default, then written field by field. *)
Definition Plan_entry (request : PlanRequest.t) (i : nat) (t : Task.t)
  : Py.result Assignment.t :=
  let a := Assignment.default in
  let a := Assignment.set_task_id a (Task.id t) in
  if 0 <? List.length (PlanRequest.workers request) then
    w <- Py.getitem (PlanRequest.workers request)
           (i mod List.length (PlanRequest.workers request));;
    let a := Assignment.set_worker_id a (Worker.id w) in
    let a := Assignment.set_start_unix a 0 in
    d <- Py.int (Task.estimated_sec t);;
    d <- Py.CheckValue est_duration_sec_checker d;;
    Py.Ok (Assignment.set_est_duration_sec a d)
  else Py.Ok a.

(** The body of the loop [for i, t in enumerate(request.tasks)]. *)
Definition Plan_body (request : PlanRequest.t) (resp : PlanResponse.t)
    (it : nat * Task.t) : Py.result PlanResponse.t :=
  let '(i, t) := it in
  a <- Plan_entry request i t;;
  Py.Ok (PlanResponse.add_assignment resp a).

Definition Plan (self : PlannerServicer) (request : PlanRequest.t)
    (context : ServicerContext) : Py.result PlanResponse.t :=
  let resp := PlanResponse.default in
  let resp := PlanResponse.set_plan_id resp "plan-stub-1" in
  let resp := PlanResponse.set_status_message resp "stub plan" in
  resp <- Py.for_ (Py.enumerate (PlanRequest.tasks request))
            (Plan_body request) resp;;
  Py.Ok resp.

End Planner.

(** ** What a plan says, read off a request and its response *)

Module Contract.

Import PlanRequest PlanResponse.

(** An assignment is accepted (its task is placed) when it names a worker. *)
Definition placed (a : Assignment.t) : bool :=
  negb (String.eqb (Assignment.worker_id a) "").

(** The plan's status: the one status field the response has. *)
Definition status (resp : PlanResponse.t) : string := status_message resp.

(** The task and the worker an assignment refers to, by id. *)
Definition task_of (req : PlanRequest.t) (a : Assignment.t) : option Task.t :=
  find (fun t => String.eqb (Task.id t) (Assignment.task_id a)) (tasks req).

Definition worker_of (req : PlanRequest.t) (a : Assignment.t) : option Worker.t :=
  find (fun w => String.eqb (Worker.id w) (Assignment.worker_id a)) (workers req).

(** *** Completeness *)

(** Every input task appears in exactly one of [assignments] and
    [unplaced_task_id]: together the two lists hold the input ids, each as
    often as the input does, no id is in both, and the counts add up. *)
Definition complete (req : PlanRequest.t) (resp : PlanResponse.t) : Prop :=
  Permutation
    (map Assignment.task_id (assignments resp) ++ unplaced_task_id resp)
    (map Task.id (tasks req))
  /\ (forall x, In x (map Assignment.task_id (assignments resp)) ->
                ~ In x (unplaced_task_id resp))
  /\ List.length (assignments resp) + List.length (unplaced_task_id resp)
     = List.length (tasks req).

(** *** Capacity *)

Definition Qsum (l : list Q) : Q := fold_right Qplus 0%Q l.

(** The request of the task an assignment refers to, in one dimension. *)
Definition allocation (dim : Task.t -> Q) (req : PlanRequest.t)
    (a : Assignment.t) : Q :=
  match task_of req a with
  | Some t => dim t
  | None => 0%Q
  end.

(** What the assignments [l] allocate on worker [w] in one dimension. *)
Definition load (dim : Task.t -> Q) (req : PlanRequest.t)
    (l : list Assignment.t) (w : Worker.t) : Q :=
  Qsum (map (allocation dim req)
            (filter (fun a => String.eqb (Assignment.worker_id a) (Worker.id w)) l)).

Definition within_capacity (req : PlanRequest.t) (l : list Assignment.t)
    (w : Worker.t) : Prop :=
  (load Task.cpu_request req l w <= Worker.cpu_capacity w)%Q
  /\ (load Task.memory_request req l w <= Worker.memory_capacity w)%Q
  /\ (load Task.gpu_request req l w <= Worker.gpu_capacity w)%Q.

(** A worker appears in a plan when one of its assignments names it. *)
Definition appears (resp : PlanResponse.t) (w : Worker.t) : Prop :=
  exists a, In a (assignments resp)
            /\ Assignment.worker_id a = Worker.id w.

Definition capacity_invariant (req : PlanRequest.t) (resp : PlanResponse.t)
  : Prop :=
  forall w, In w (workers req) -> appears resp w ->
            within_capacity req (assignments resp) w.

(** The tasks at the input positions [i] with [i mod n = j]: the share a
    round-robin over [n] workers gives the worker at position [j]. *)
Definition share (n j : nat) (ts : list Task.t) : list Task.t :=
  map snd (filter (fun it => fst it mod n =? j) (Py.enumerate ts)).

(** *** Best fit *)

(** What is left of worker [w] in one dimension once the assignments
    [prior] are committed. *)
Definition residual (dim : Task.t -> Q) (cap : Worker.t -> Q)
    (req : PlanRequest.t) (prior : list Assignment.t) (w : Worker.t) : Q :=
  (cap w - load dim req prior w)%Q.

Definition candidate (req : PlanRequest.t) (prior : list Assignment.t)
    (t : Task.t) (w : Worker.t) : bool :=
  Qle_bool (Task.cpu_request t)
           (residual Task.cpu_request Worker.cpu_capacity req prior w)
  && Qle_bool (Task.memory_request t)
              (residual Task.memory_request Worker.memory_capacity req prior w)
  && Qle_bool (Task.gpu_request t)
              (residual Task.gpu_request Worker.gpu_capacity req prior w).

(** One coordinate of the residual fraction vector after the assignment. *)
Definition fraction_after (dim : Task.t -> Q) (cap : Worker.t -> Q)
    (req : PlanRequest.t) (prior : list Assignment.t)
    (t : Task.t) (w : Worker.t) : Q :=
  ((residual dim cap req prior w - dim t) / cap w)%Q.

(** The square of the fragmentation score; the score, a Euclidean norm, is
    not negative, so it is least where its square is. *)
Definition fragmentation2 (req : PlanRequest.t) (prior : list Assignment.t)
    (t : Task.t) (w : Worker.t) : Q :=
  let c := fraction_after Task.cpu_request Worker.cpu_capacity req prior t w in
  let m := fraction_after Task.memory_request Worker.memory_capacity req prior t w in
  let g := fraction_after Task.gpu_request Worker.gpu_capacity req prior t w in
  (c * c + m * m + g * g)%Q.

(** [w] is a best fit for [t]: a candidate whose score no candidate beats,
    and of the lowest id among the candidates with that score. *)
Definition best_fit (req : PlanRequest.t) (prior : list Assignment.t)
    (t : Task.t) (w : Worker.t) : Prop :=
  candidate req prior t w = true
  /\ forall w', In w' (workers req) -> candidate req prior t w' = true ->
       (fragmentation2 req prior t w < fragmentation2 req prior t w')%Q
       \/ ((fragmentation2 req prior t w == fragmentation2 req prior t w')%Q
           /\ String.leb (Worker.id w) (Worker.id w') = true).

(** Every placed task went to a best fit, the residuals being those left by
    the assignments made before it. *)
Definition best_fit_plan (req : PlanRequest.t) (resp : PlanResponse.t) : Prop :=
  forall k a, nth_error (assignments resp) k = Some a -> placed a = true ->
    exists t w, task_of req a = Some t /\ worker_of req a = Some w
                /\ best_fit req (firstn k (assignments resp)) t w.

(** *** Processing order *)

(** The tasks in the order the call handled them: each assignment is
    added when its task is handled. *)
Fixpoint processed (req : PlanRequest.t) (l : list Assignment.t) : list Task.t :=
  match l with
  | [] => []
  | a :: l' =>
      match task_of req a with
      | Some t => t :: processed req l'
      | None => processed req l'
      end
  end.

(** The squared L2 norm of a request, each dimension divided by its
    normalising constant. *)
Definition request_norm2 (ncpu nmem ngpu : Q) (t : Task.t) : Q :=
  let c := (Task.cpu_request t / ncpu)%Q in
  let m := (Task.memory_request t / nmem)%Q in
  let g := (Task.gpu_request t / ngpu)%Q in
  (c * c + m * m + g * g)%Q.

Definition largest_first (ncpu nmem ngpu : Q) (req : PlanRequest.t)
    (resp : PlanResponse.t) : Prop :=
  forall i j ti tj, i < j ->
    nth_error (processed req (assignments resp)) i = Some ti ->
    nth_error (processed req (assignments resp)) j = Some tj ->
    (request_norm2 ncpu nmem ngpu tj <= request_norm2 ncpu nmem ngpu ti)%Q.

(** *** Start time *)

(** The start of an accepted assignment is [now], unless the caller gave
    its task a start hint in the future, which is then the start. *)
Definition start_rule (now : Z) (hint : Task.t -> option Z)
    (req : PlanRequest.t) (resp : PlanResponse.t) : Prop :=
  forall a t, In a (assignments resp) -> placed a = true ->
    task_of req a = Some t ->
    match hint t with
    | Some h => if (now <? h)%Z then Assignment.start_unix a = h
                else Assignment.start_unix a = now
    | None => Assignment.start_unix a = now
    end.

(** *** Status *)

Definition placed_count (resp : PlanResponse.t) : nat :=
  List.length (filter placed (assignments resp)).

Definition status_rule (req : PlanRequest.t) (resp : PlanResponse.t) : Prop :=
  (status resp = "success" <-> unplaced_task_id resp = [])
  /\ (status resp = "partial" <->
      0 < placed_count resp < List.length (tasks req))
  /\ (status resp = "rejected-all" <-> placed_count resp = 0).

(** With no worker every task is unplaced and the plan is rejected. *)
Definition rejected_all (req : PlanRequest.t) (resp : PlanResponse.t) : Prop :=
  (forall t, In t (tasks req) -> In (Task.id t) (unplaced_task_id resp))
  /\ (forall a, In a (assignments resp) -> placed a = false)
  /\ status resp = "rejected-all".

(** *** What [Plan] reads of a request *)

Definition reads_of_task (t : Task.t) : string * spec_float :=
  (Task.id t, Task.estimated_sec t).

(** Two requests agree on the ids of their workers and on the ids and
    durations of their tasks; resource requests and capacities may differ. *)
Definition same_reads (req req' : PlanRequest.t) : Prop :=
  map Worker.id (workers req) = map Worker.id (workers req')
  /\ map reads_of_task (tasks req) = map reads_of_task (tasks req').

End Contract.

(** ** When a call returns, and with which entries *)

Section Returns.

Import PlanRequest PlanResponse.

Variable est_duration_sec_checker : Py.IntValueChecker.

(** The duration of [t] converts to an integer that the field
    [est_duration_sec] can store. *)
Definition storable (t : Task.t) : bool :=
  match Py.int (Task.estimated_sec t) with
  | Py.Ok d => ((Py._MIN est_duration_sec_checker <=? d)
                && (d <=? Py._MAX est_duration_sec_checker))%Z
  | Py.Raise _ => false
  end.

(** The requests on which [Plan] returns a response (see [Plan_returns_iff]):
    the durations are only converted when there is a worker. *)
Definition Plan_returns (req : PlanRequest.t) : Prop :=
  workers req = [] \/ forallb storable (tasks req) = true.

(** The entries of the tasks [ts], the first of which has index [k]. *)
Fixpoint Plan_entries (req : PlanRequest.t) (k : nat) (ts : list Task.t)
  : Py.result (list Assignment.t) :=
  match ts with
  | [] => Py.Ok []
  | t :: ts' =>
      a <- Plan_entry est_duration_sec_checker req k t;;
      l <- Plan_entries req (S k) ts';;
      Py.Ok (a :: l)
  end.

End Returns.

(** ** Sample calls *)

Module Samples.

(** A planner whose [est_duration_sec] is an int64 field, called directly. *)
Definition Plan64 (request : PlanRequest.t) : Py.result PlanResponse.t :=
  Plan Py.Int64ValueChecker PlannerServicer_new request tt.

(** 2.5, 30.0 and 7.75 seconds. *)
Definition sec_2_5 : spec_float := S754_finite false 5 (-1).
Definition sec_30 : spec_float := S754_finite false 15 1.
Definition sec_7_75 : spec_float := S754_finite false 31 (-2).

Definition small : Task.t := Task.mk "small" sec_2_5 1 1 1.
Definition large : Task.t := Task.mk "large" sec_30 2 2 2.
Definition medium : Task.t := Task.mk "medium" sec_7_75 1 2 1.

Definition roomy : Worker.t := Worker.mk "w1" 8 8 8.
Definition tight : Worker.t := Worker.mk "w2" 1 1 1.

Definition three_on_two : PlanRequest.t :=
  PlanRequest.mk [small; large; medium] [roomy; tight].

Definition one_on_two : PlanRequest.t :=
  PlanRequest.mk [small] [roomy; tight].

Definition two_on_tight : PlanRequest.t :=
  PlanRequest.mk [small; large] [tight].

Definition one_on_none : PlanRequest.t :=
  PlanRequest.mk [small] [].

Definition plan (l : list Assignment.t) : PlanResponse.t :=
  PlanResponse.mk "plan-stub-1" "stub plan" l [].

(** What the calls on the samples return. *)
Definition three_on_two_plan : PlanResponse.t :=
  plan [Assignment.mk "small" "w1" 0 2;
        Assignment.mk "large" "w2" 0 30;
        Assignment.mk "medium" "w1" 0 7].

Definition one_on_two_plan : PlanResponse.t :=
  plan [Assignment.mk "small" "w1" 0 2].

Definition two_on_tight_plan : PlanResponse.t :=
  plan [Assignment.mk "small" "w2" 0 2; Assignment.mk "large" "w2" 0 30].

Definition one_on_none_plan : PlanResponse.t :=
  plan [Assignment.mk "small" "" 0 0].

(** Durations that do not convert: not a number, infinite, and 2^63
    seconds, one more than an int64 field holds. *)
Definition unknown : Task.t := Task.mk "unknown" S754_nan 1 1 1.
Definition endless : Task.t := Task.mk "endless" (S754_infinity false) 1 1 1.
Definition aeon : Task.t := Task.mk "aeon" (S754_finite false 1 63) 1 1 1.

(** [three_on_two] with other requests and capacities: no task fits the
    first worker, every task fits the second. *)
Definition three_on_two_resized : PlanRequest.t :=
  PlanRequest.mk
    [Task.mk "small" sec_2_5 9 9 9;
     Task.mk "large" sec_30 2 2 2;
     Task.mk "medium" sec_7_75 4 5 6]
    [Worker.mk "w1" 1 1 1; Worker.mk "w2" 16 16 16].

End Samples.

(** ** Batches, shares and failing durations *)

Module Batch.

Import PlanRequest PlanResponse.

(** The request [req] with the task list [ts] in place of its own. *)
Definition with_tasks (req : PlanRequest.t) (ts : list Task.t)
  : PlanRequest.t :=
  PlanRequest.mk ts (workers req).

(** How many assignments of a response name worker [w]. *)
Definition assigned_count (resp : PlanResponse.t) (w : Worker.t) : nat :=
  List.length
    (filter (fun a => String.eqb (Assignment.worker_id a) (Worker.id w))
            (assignments resp)).

(** The number of positions [i < total] with [i mod n = j], for [j < n]. *)
Definition share_size (total n j : nat) : nat := (total + n - 1 - j) / n.

(** The exception the loop body ends with on task [t] when there is a
    worker: the one [int] raises on the duration, or the ValueError of the
    range check of the field; [None] when the duration is stored. *)
Definition duration_error (chk : Py.IntValueChecker) (t : Task.t)
  : option Py.exn :=
  match Py.int (Task.estimated_sec t) with
  | Py.Raise e => Some e
  | Py.Ok d =>
      match Py.CheckValue chk d with
      | Py.Raise e => Some e
      | Py.Ok _ => None
      end
  end.

(** [d] is the float [x] rounded toward zero: [x] is finite, [d] has its
    sign, and [|d| <= |x| < |d| + 1]. *)
Definition truncation_of (x : spec_float) (d : Z) : Prop :=
  match x with
  | S754_zero _ => d = 0%Z
  | S754_finite s m e =>
      (Z.abs d * Py.float_den e <= Z.abs (Py.float_num s m e)
       < (Z.abs d + 1) * Py.float_den e
       /\ 0 <= d * Py.float_num s m e)%Z
  | S754_infinity _ | S754_nan => False
  end.

(** A batch whose second task has no duration, for one worker. *)
Definition second_unknown : PlanRequest.t :=
  PlanRequest.mk [Samples.small; Samples.unknown; Samples.large]
    [Samples.roomy].

End Batch.

(** ** serve *)

(** [serve] only makes library calls and waits. A run of it is read
    against the outcomes of these calls, in the order they are made: the
    calls made so far, and whether [serve] has returned, has raised, or is
    inside a call whose outcome is not known yet. *)
Module Serve.

(** What a call can end with instead of returning. [KeyboardInterrupt] is
    the one exception [serve] handles. *)
Inductive exc : Set :=
| KeyboardInterrupt
| OtherException.

(** The calls of [serve], with the arguments the source gives them. *)
Inductive call : Set :=
| ThreadPoolExecutor (max_workers : nat)
| grpc_server
| PlannerServicer_init
| add_PlannerServicer_to_server
| add_insecure_port (address : string)
| server_start
| time_sleep (secs : Z)
| server_stop (grace : Z).

(** A call returns ([None]) or raises. *)
Definition outcome : Set := option exc.

Inductive status : Set :=
| Returned
| Raised (e : exc)
| Pending.

Definition run : Set := list call * status.

(** A call outside any [try], followed by the rest of the function. *)
Definition then_ (c : call) (rest : list outcome -> run)
    (env : list outcome) : run :=
  match env with
  | [] => ([c], Pending)
  | None :: env' => let (tr, st) := rest env' in (c :: tr, st)
  | Some e :: _ => ([c], Raised e)
  end.

(** The end of the function body. *)
Definition return_ (env : list outcome) : run := ([], Returned).

(** [try: while True: time.sleep(3600)  except KeyboardInterrupt:
    server.stop(0)]. Each turn of the loop uses up one outcome. *)
Fixpoint wait (env : list outcome) : run :=
  match env with
  | [] => ([time_sleep 3600], Pending)
  | None :: env' =>
      let (tr, st) := wait env' in (time_sleep 3600 :: tr, st)
  | Some KeyboardInterrupt :: env' =>
      let (tr, st) := then_ (server_stop 0) return_ env' in
      (time_sleep 3600 :: tr, st)
  | Some e :: _ => ([time_sleep 3600], Raised e)
  end.

Definition serve : list outcome -> run :=
  then_ (ThreadPoolExecutor 8)
    (then_ grpc_server
       (then_ PlannerServicer_init
          (then_ add_PlannerServicer_to_server
             (then_ (add_insecure_port "[::]:50051")
                (then_ server_start wait))))).

(** The six calls that set the server up. *)
Definition setup : list call :=
  [ThreadPoolExecutor 8; grpc_server; PlannerServicer_init;
   add_PlannerServicer_to_server; add_insecure_port "[::]:50051";
   server_start].

(** [n] calls that return. *)
Definition returns (n : nat) : list outcome := repeat None n.

End Serve.

(** ** The workloads the planner's tasks run *)

(** What a call of a workload function ends with: a value, or one of the
    two exceptions these functions can meet. A recursive function is read
    with the number of calls that may still be nested, and raises
    RecursionError when none is left. *)
Module Workload.

Inductive error : Set :=
| RecursionError
| IndexError.

Inductive outcome (A : Type) : Type :=
| Value (a : A)
| Error (e : error).

Arguments Value {A} a.
Arguments Error {A} e.

Definition bind {A B : Type} (c : outcome A) (k : A -> outcome B)
  : outcome B :=
  match c with
  | Value a => k a
  | Error e => Error e
  end.

(** [arr[i]] for a non-negative index. *)
Definition getitem (arr : list Z) (i : nat) : outcome Z :=
  match nth_error arr i with
  | Some x => Value x
  | None => Error IndexError
  end.

(** [arr[i] = v] for a non-negative index. *)
Fixpoint setitem (arr : list Z) (i : nat) (v : Z) : outcome (list Z) :=
  match arr, i with
  | [], _ => Error IndexError
  | _ :: arr', O => Value (v :: arr')
  | x :: arr', S i' => bind (setitem arr' i' v) (fun r => Value (x :: r))
  end.

(** A [for] loop over [range(n)] whose body updates a state and may raise. *)
Fixpoint for_range {St : Type} (start n : nat)
    (body : St -> nat -> outcome St) (s : St) : outcome St :=
  match n with
  | O => Value s
  | S n' => bind (body s start) (for_range (S start) n' body)
  end.

End Workload.

Notation "x <~ c ;; k" := (Workload.bind c (fun x => k))
  (at level 61, c at next level, right associativity).

(** *** WORKLOADS/10_cpu-heavy_sort-benchmark.py *)

Module SortBenchmark.

Import Workload.

(** The body of the inner loop of [bubble_sort]: compare and swap in
    place. *)
Definition bubble_step (arr : list Z) (j : nat) : outcome (list Z) :=
  x <~ getitem arr j;;
  y <~ getitem arr (j + 1);;
  if (x >? y)%Z then
    y' <~ getitem arr (j + 1);;
    x' <~ getitem arr j;;
    arr <~ setitem arr j y';;
    setitem arr (j + 1) x'
  else Value arr.

(** The body of the outer loop: [for j in range(0, n-i-1)]. *)
Definition bubble_pass (n : nat) (arr : list Z) (i : nat)
  : outcome (list Z) :=
  for_range 0 (n - i - 1) bubble_step arr.

Definition bubble_sort (arr : list Z) : outcome (list Z) :=
  let n := List.length arr in
  for_range 0 n (bubble_pass n) arr.

(** The loop of [merge], on the indices [i] and [j] and the list [result];
    [fuel] bounds the number of turns. *)
Fixpoint merge_loop (fuel : nat) (left right : list Z) (i j : nat)
    (result : list Z) : outcome (nat * nat * list Z) :=
  match fuel with
  | O => Value (i, j, result)
  | S fuel' =>
      if (i <? List.length left) && (j <? List.length right) then
        x <~ getitem left i;;
        y <~ getitem right j;;
        if (x <=? y)%Z then
          x' <~ getitem left i;;
          merge_loop fuel' left right (i + 1) j (result ++ [x'])
        else
          y' <~ getitem right j;;
          merge_loop fuel' left right i (j + 1) (result ++ [y'])
      else Value (i, j, result)
  end.

(** Each turn advances [i] or [j], so the loop makes at most
    [len(left) + len(right)] turns. *)
Definition merge (left right : list Z) : outcome (list Z) :=
  st <~ merge_loop (List.length left + List.length right) left right 0 0 [];;
  let '(i, j, result) := st in
  let result := (result ++ skipn i left)%list in
  let result := (result ++ skipn j right)%list in
  Value result.

Fixpoint merge_sort (depth : nat) (arr : list Z) : outcome (list Z) :=
  match depth with
  | O => Error RecursionError
  | S depth' =>
      if List.length arr <=? 1 then Value arr
      else
        let mid := List.length arr / 2 in
        left <~ merge_sort depth' (firstn mid arr);;
        right <~ merge_sort depth' (skipn mid arr);;
        merge left right
  end.

Fixpoint quick_sort (depth : nat) (arr : list Z) : outcome (list Z) :=
  match depth with
  | O => Error RecursionError
  | S depth' =>
      if List.length arr <=? 1 then Value arr
      else
        pivot <~ getitem arr (List.length arr / 2);;
        let left := filter (fun x => (x <? pivot)%Z) arr in
        let middle := filter (fun x => (x =? pivot)%Z) arr in
        let right := filter (fun x => (x >? pivot)%Z) arr in
        l <~ quick_sort depth' left;;
        r <~ quick_sort depth' right;;
        Value ((l ++ middle) ++ r)%list
  end.

(** The merge of two lists by their heads, to compare [merge] with. *)
Fixpoint merge_heads (l1 : list Z) : list Z -> list Z :=
  fix inner (l2 : list Z) : list Z :=
    match l1, l2 with
    | [], _ => l2
    | _, [] => l1
    | x :: l1', y :: l2' =>
        if (x <=? y)%Z then x :: merge_heads l1' l2 else y :: inner l2'
    end.

(** One pass of [bubble_sort] over the first [m + 1] elements, by the
    heads. *)
Fixpoint bubble (m : nat) (l : list Z) : list Z :=
  match m, l with
  | S m', x :: y :: l' =>
      if (x >? y)%Z then y :: bubble m' (x :: l') else x :: bubble m' (y :: l')
  | _, _ => l
  end.

End SortBenchmark.

(** *** WORKLOADS/09_cpu-heavy_fibonacci.py *)

Module Fibonacci.

Import Workload.

(** [range(lo, hi)]. *)
Definition range (lo hi : Z) : list Z :=
  map (fun k => (lo + Z.of_nat k)%Z) (seq 0 (Z.to_nat (hi - lo))).

Definition fibonacci_iterative (n : Z) : Z :=
  if (n <=? 1)%Z then n
  else
    let '(a, b) :=
      fold_left (fun (ab : Z * Z) (_ : Z) =>
                   let '(a, b) := ab in (b, (a + b)%Z))
                (range 2 (n + 1)) (0%Z, 1%Z) in
    b.

(** The cache of [lru_cache(maxsize=None)]: the results stored so far, by
    argument; it is shared by all calls and never evicts. *)
Definition cache : Set := list (Z * Z).

Definition lookup (n : Z) (c : cache) : option Z :=
  match find (fun kv => (fst kv =? n)%Z) c with
  | Some kv => Some (snd kv)
  | None => None
  end.

(** [fibonacci_memo(n)] with [depth] nested calls left: a hit returns the
    stored result; a miss runs the body and stores its result. The cache is
    returned also when the call raises, with what the calls that did return
    have stored. *)
Fixpoint fibonacci_memo (depth : nat) (n : Z) (c : cache)
  : outcome Z * cache :=
  match lookup n c with
  | Some v => (Value v, c)
  | None =>
      match depth with
      | O => (Error RecursionError, c)
      | S depth' =>
          if (n <=? 1)%Z then (Value n, (n, n) :: c)
          else
            match fibonacci_memo depth' (n - 1) c with
            | (Error e, c1) => (Error e, c1)
            | (Value x, c1) =>
                match fibonacci_memo depth' (n - 2) c1 with
                | (Error e, c2) => (Error e, c2)
                | (Value y, c2) => (Value (x + y)%Z, (n, (x + y)%Z) :: c2)
                end
            end
      end
  end.


End Fibonacci.

(** ** The runtime *)

Lemma bind_Ok_inv (A B : Type) (c : Py.result A) (k : A -> Py.result B) (b : B) :
  Py.bind c k = Py.Ok b -> exists a, c = Py.Ok a /\ k a = Py.Ok b.
Proof.
  destruct c as [a | e]; simpl; intro H.
  - exists a. split; [reflexivity | exact H].
  - discriminate H.
Qed.

(** Inverts a [bind] that returned: names the intermediate value and the
    fact that the first computation returned it. *)
Ltac bind_inv H a Ha :=
  apply bind_Ok_inv in H; destruct H as [a [Ha H]].

Lemma CheckValue_Ok_iff (c : Py.IntValueChecker) (v v' : Z) :
  Py.CheckValue c v = Py.Ok v' <-> v' = v /\ (Py._MIN c <= v <= Py._MAX c)%Z.
Proof.
  unfold Py.CheckValue.
  destruct (Py._MIN c <=? v)%Z eqn:Hlo; destruct (v <=? Py._MAX c)%Z eqn:Hhi;
    simpl; split; intro H;
    try discriminate H;
    try (injection H as <-; split; [reflexivity | lia]);
    try (destruct H as [-> _]; reflexivity);
    destruct H as [_ H]; lia.
Qed.

(** [int] truncates toward zero: the result [d] of converting the finite
    value [num / den] has the sign of the value and is the largest integer
    in magnitude with [|d| * den <= |num|]. *)
Lemma int_truncates (s : bool) (m : positive) (e : Z) (d : Z) :
  Py.int (S754_finite s m e) = Py.Ok d ->
  (0 < Py.float_den e
   /\ Z.abs d * Py.float_den e <= Z.abs (Py.float_num s m e)
      < (Z.abs d + 1) * Py.float_den e
   /\ 0 <= d * Py.float_num s m e)%Z.
Proof.
  simpl. intro H. injection H as <-.
  set (n := Py.float_num s m e). set (q := Py.float_den e).
  assert (Hq : (0 < q)%Z) by (apply Z.pow_pos_nonneg; lia).
  split; [exact Hq |].
  pose proof (Z.quot_rem' n q) as Hn.
  pose proof (Z.rem_bound_abs n q ltac:(lia)) as Hr.
  pose proof (Z.rem_sign_mul n q ltac:(lia)) as Hs.
  pose proof (Z.quot_abs n q ltac:(lia)) as Ha.
  pose proof (Z.rem_abs n q ltac:(lia)) as Hra.
  pose proof (Z.quot_rem' (Z.abs n) (Z.abs q)) as Hn'.
  rewrite <- Ha.
  replace (Z.abs q) with q in * by lia.
  pose proof (Z.rem_nonneg (Z.abs n) q ltac:(lia) ltac:(lia)) as Hr0.
  split; [nia |].
  destruct (Z.eq_dec (Z.quot n q) 0) as [-> | Hne]; [lia |].
  pose proof (Z.quot_opp_l n q ltac:(lia)).
  destruct (Z_lt_le_dec n 0) as [Hneg | Hpos].
  - assert (Z.quot n q <= 0)%Z.
    { rewrite <- (Z.opp_involutive n), Z.quot_opp_l by lia.
      pose proof (Z.quot_pos (- n) q ltac:(lia) ltac:(lia)). lia. }
    nia.
  - pose proof (Z.quot_pos n q ltac:(lia) ltac:(lia)). nia.
Qed.

(** ** Sample calls, evaluated *)

Example Plan64_three_on_two :
  Samples.Plan64 Samples.three_on_two = Py.Ok Samples.three_on_two_plan.
Proof. reflexivity. Qed.

Example Plan64_negative_duration :
  Samples.Plan64
    (PlanRequest.mk [Task.mk "back" (S754_finite true 7 (-1)) 1 1 1]
       [Samples.roomy])
  = Py.Ok (Samples.plan [Assignment.mk "back" "w1" 0 (-3)]).
Proof. reflexivity. Qed.

Example Plan64_nan_raises :
  Samples.Plan64 (PlanRequest.mk [Samples.small; Samples.unknown]
                    [Samples.roomy])
  = Py.Raise Py.ValueError.
Proof. reflexivity. Qed.

Example Plan64_infinity_raises :
  Samples.Plan64 (PlanRequest.mk [Samples.endless] [Samples.roomy])
  = Py.Raise Py.OverflowError.
Proof. reflexivity. Qed.

Example Plan64_out_of_range_raises :
  Samples.Plan64 (PlanRequest.mk [Samples.aeon] [Samples.roomy])
  = Py.Raise Py.ValueError.
Proof. reflexivity. Qed.

Example Plan64_nan_without_workers :
  Samples.Plan64 (PlanRequest.mk [Samples.unknown] [])
  = Py.Ok (Samples.plan [Assignment.mk "unknown" "" 0 0]).
Proof. reflexivity. Qed.

(** ** The entries of a call *)

Section Entries.

Import PlanRequest PlanResponse.

Context {ServicerContext : Type}.
Variable chk : Py.IntValueChecker.

Lemma workers_test (req : PlanRequest.t) :
  (0 <? List.length (workers req)) = false <-> workers req = [].
Proof.
  destruct (workers req); simpl; split; intro H;
    try reflexivity; discriminate H.
Qed.

(** With no worker the entry only has its task id. *)
Lemma Plan_entry_no_workers (req : PlanRequest.t) (i : nat) (t : Task.t) :
  workers req = [] ->
  Plan_entry chk req i t = Py.Ok (Assignment.mk (Task.id t) "" 0 0).
Proof.
  intro H. unfold Plan_entry. rewrite H. reflexivity.
Qed.

(** With workers, the entry names the worker at [i mod n] and stores the
    truncated duration, when that fits the field. *)
Lemma Plan_entry_Ok_inv (req : PlanRequest.t) (i : nat) (t : Task.t)
    (a : Assignment.t) :
  workers req <> [] ->
  Plan_entry chk req i t = Py.Ok a ->
  exists w d,
    nth_error (workers req) (i mod List.length (workers req)) = Some w
    /\ Py.int (Task.estimated_sec t) = Py.Ok d
    /\ (Py._MIN chk <= d <= Py._MAX chk)%Z
    /\ a = Assignment.mk (Task.id t) (Worker.id w) 0 d.
Proof.
  intros Hw H. unfold Plan_entry in H.
  destruct (0 <? List.length (workers req)) eqn:Hn.
  - bind_inv H w Hget.
    bind_inv H d Hint.
    bind_inv H d' Hchk.
    apply CheckValue_Ok_iff in Hchk. destruct Hchk as [-> Hrange].
    exists w, d. unfold Py.getitem in Hget.
    destruct (nth_error (workers req) (i mod List.length (workers req)));
      [| discriminate Hget].
    injection Hget as ->. injection H as <-.
    repeat split; try assumption; lia.
  - apply workers_test in Hn. contradiction.
Qed.

Lemma Plan_entry_storable (req : PlanRequest.t) (i : nat) (t : Task.t) :
  workers req <> [] -> storable chk t = true ->
  exists a, Plan_entry chk req i t = Py.Ok a.
Proof.
  intros Hw Hs. unfold Plan_entry, storable in *.
  destruct (0 <? List.length (workers req)) eqn:Hn.
  - apply Nat.ltb_lt in Hn.
    assert (Hi : i mod List.length (workers req) < List.length (workers req))
      by (apply Nat.mod_upper_bound; lia).
    apply nth_error_Some in Hi. unfold Py.getitem.
    destruct (nth_error (workers req) (i mod List.length (workers req)))
      as [w |]; [| contradiction].
    simpl. destruct (Py.int (Task.estimated_sec t)) as [d | e];
      [| discriminate Hs].
    simpl. unfold Py.CheckValue. rewrite Hs. simpl. eauto.
  - apply workers_test in Hn. contradiction.
Qed.

Lemma Plan_entry_Ok_storable (req : PlanRequest.t) (i : nat) (t : Task.t)
    (a : Assignment.t) :
  workers req <> [] -> Plan_entry chk req i t = Py.Ok a ->
  storable chk t = true.
Proof.
  intros Hw H. destruct (Plan_entry_Ok_inv _ _ _ _ Hw H) as [w [d [_ [Hd [Hr _]]]]].
  unfold storable. rewrite Hd. apply andb_true_iff. split; apply Z.leb_le; lia.
Qed.

(** Whatever the workers, an entry has its task's id and starts at 0. *)
Lemma Plan_entry_task_id (req : PlanRequest.t) (i : nat) (t : Task.t)
    (a : Assignment.t) :
  Plan_entry chk req i t = Py.Ok a ->
  Assignment.task_id a = Task.id t /\ Assignment.start_unix a = 0%Z.
Proof.
  intro H. destruct (workers req) as [| w0 ws] eqn:Hw.
  - rewrite Plan_entry_no_workers in H by exact Hw. injection H as <-.
    split; reflexivity.
  - assert (Hne : workers req <> []) by (rewrite Hw; discriminate).
    destruct (Plan_entry_Ok_inv _ _ _ _ Hne H) as [w [d [_ [_ [_ ->]]]]].
    split; reflexivity.
Qed.

(** The loop adds the entries of the tasks, in order, to what the response
    already holds, and raises when an entry does. *)
Lemma for_Plan_body (req : PlanRequest.t) (ts : list Task.t) :
  forall (k : nat) (resp : PlanResponse.t),
    Py.for_ (Py.enumerate_from k ts) (Plan_body chk req) resp
    = (l <- Plan_entries chk req k ts;;
       Py.Ok (PlanResponse.mk (plan_id resp) (status_message resp)
                (assignments resp ++ l) (unplaced_task_id resp))).
Proof.
  induction ts as [| t ts IH]; intros k resp; simpl.
  - rewrite app_nil_r. destruct resp; reflexivity.
  - destruct (Plan_entry chk req k t) as [a | e]; simpl; [| reflexivity].
    rewrite IH. destruct (Plan_entries chk req (S k) ts) as [l | e]; simpl;
      [| reflexivity].
    rewrite <- app_assoc. reflexivity.
Qed.

Lemma Plan_unfold (self : PlannerServicer) (req : PlanRequest.t)
    (ctx : ServicerContext) :
  Plan chk self req ctx
  = (l <- Plan_entries chk req 0 (tasks req);;
     Py.Ok (PlanResponse.mk "plan-stub-1" "stub plan" l [])).
Proof.
  unfold Plan, Py.enumerate. rewrite for_Plan_body. simpl.
  destruct (Plan_entries chk req 0 (tasks req)); reflexivity.
Qed.

Lemma Plan_Ok_iff (self : PlannerServicer) (req : PlanRequest.t)
    (ctx : ServicerContext) (resp : PlanResponse.t) :
  Plan chk self req ctx = Py.Ok resp
  <-> exists l, Plan_entries chk req 0 (tasks req) = Py.Ok l
                /\ resp = PlanResponse.mk "plan-stub-1" "stub plan" l [].
Proof.
  rewrite Plan_unfold. split.
  - intro H. bind_inv H l Hl.
    exists l. split; [exact Hl |]. injection H as <-. reflexivity.
  - intros [l [Hl ->]]. rewrite Hl. reflexivity.
Qed.

(** The [j]-th entry is the entry of the [j]-th task. *)
Lemma Plan_entries_nth (req : PlanRequest.t) (ts : list Task.t) :
  forall (k : nat) (l : list Assignment.t),
    Plan_entries chk req k ts = Py.Ok l ->
    List.length l = List.length ts
    /\ forall j t, nth_error ts j = Some t ->
         exists a, nth_error l j = Some a
                   /\ Plan_entry chk req (k + j) t = Py.Ok a.
Proof.
  induction ts as [| t ts IH]; intros k l H; simpl in H.
  - injection H as <-. split; [reflexivity |].
    intros [| j] t' Hj; discriminate Hj.
  - bind_inv H a Ha.
    bind_inv H l' Hl'.
    injection H as <-. destruct (IH _ _ Hl') as [Hlen Hnth].
    split; [simpl; congruence |].
    intros [| j] t' Hj; simpl in Hj.
    + injection Hj as <-. exists a. rewrite Nat.add_0_r. split; [reflexivity | exact Ha].
    + destruct (Hnth _ _ Hj) as [a' [Hj' Ha']]. exists a'.
      rewrite Nat.add_succ_r. split; assumption.
Qed.

Lemma Plan_entries_returns (req : PlanRequest.t) (ts : list Task.t) :
  forall k : nat,
    (forall i t, In t ts -> exists a, Plan_entry chk req i t = Py.Ok a) ->
    exists l, Plan_entries chk req k ts = Py.Ok l.
Proof.
  induction ts as [| t ts IH]; intros k H; simpl.
  - eauto.
  - destruct (H k t (or_introl eq_refl)) as [a ->].
    destruct (IH (S k)) as [l ->].
    + intros i t' Hin. apply H. right. exact Hin.
    + simpl. eauto.
Qed.

Lemma Plan_entries_In (req : PlanRequest.t) (ts : list Task.t) :
  forall (k : nat) (l : list Assignment.t),
    Plan_entries chk req k ts = Py.Ok l ->
    forall t, In t ts -> exists i a, Plan_entry chk req i t = Py.Ok a.
Proof.
  intros k l H t Hin. apply In_nth_error in Hin. destruct Hin as [j Hj].
  destruct (Plan_entries_nth _ _ _ _ H) as [_ Hnth].
  destruct (Hnth _ _ Hj) as [a [_ Ha]]. eauto.
Qed.

(** The task ids of the entries are the task ids of the input, in order. *)
Lemma Plan_entries_task_ids (req : PlanRequest.t) (ts : list Task.t) :
  forall (k : nat) (l : list Assignment.t),
    Plan_entries chk req k ts = Py.Ok l ->
    map Assignment.task_id l = map Task.id ts.
Proof.
  induction ts as [| t ts IH]; intros k l H; simpl in H.
  - injection H as <-. reflexivity.
  - bind_inv H a Ha.
    bind_inv H l' Hl'.
    injection H as <-. simpl.
    rewrite (IH _ _ Hl'). destruct (Plan_entry_task_id _ _ _ _ Ha) as [-> _].
    reflexivity.
Qed.

(** With no worker the call returns, every entry at its defaults. *)
Lemma Plan_no_workers_eq (self : PlannerServicer) (req : PlanRequest.t)
    (ctx : ServicerContext) :
  workers req = [] ->
  Plan chk self req ctx
  = Py.Ok (PlanResponse.mk "plan-stub-1" "stub plan"
             (map (fun t => Assignment.mk (Task.id t) "" 0 0) (tasks req))
             []).
Proof.
  intro Hw. rewrite Plan_unfold.
  assert (He : forall ts k,
             Plan_entries chk req k ts
             = Py.Ok (map (fun t => Assignment.mk (Task.id t) "" 0 0) ts)).
  { induction ts as [| t ts IH]; intro k; simpl; [reflexivity |].
    rewrite Plan_entry_no_workers by exact Hw. simpl.
    rewrite IH. reflexivity. }
  rewrite He. reflexivity.
Qed.

(** Every entry of a response is the entry of an input task. *)
Lemma Plan_entries_In_entry (req : PlanRequest.t) (ts : list Task.t) :
  forall (k : nat) (l : list Assignment.t),
    Plan_entries chk req k ts = Py.Ok l ->
    forall a, In a l ->
      exists i t, In t ts /\ Plan_entry chk req i t = Py.Ok a.
Proof.
  induction ts as [| t ts IH]; intros k l H a Hin; simpl in H.
  - injection H as <-. destruct Hin.
  - bind_inv H a0 Ha0.
    bind_inv H l' Hl'.
    injection H as <-. destruct Hin as [<- | Hin].
    + exists k, t. split; [left; reflexivity | exact Ha0].
    + destruct (IH _ _ Hl' _ Hin) as [i [t' [Ht' Ha]]].
      exists i, t'. split; [right; exact Ht' | exact Ha].
Qed.

(** [Plan] returns exactly on the requests of [Plan_returns]. *)
Lemma Plan_returns_iff (self : PlannerServicer) (req : PlanRequest.t)
    (ctx : ServicerContext) :
  (exists resp, Plan chk self req ctx = Py.Ok resp) <-> Plan_returns chk req.
Proof.
  unfold Plan_returns. split.
  - intros [resp H]. apply Plan_Ok_iff in H. destruct H as [l [Hl _]].
    destruct (workers req) as [| w0 ws] eqn:Hw; [left; reflexivity | right].
    assert (Hne : workers req <> []) by (rewrite Hw; discriminate).
    apply forallb_forall. intros t Hin.
    destruct (Plan_entries_In _ _ _ _ Hl _ Hin) as [i [a Ha]].
    exact (Plan_entry_Ok_storable _ _ _ _ Hne Ha).
  - intro H.
    destruct (Plan_entries_returns req (tasks req) 0) as [l Hl].
    + intros i t Hin. destruct H as [H | H].
      * rewrite Plan_entry_no_workers by exact H. eauto.
      * destruct (workers req) as [| w0 ws] eqn:Hw.
        -- rewrite Plan_entry_no_workers by exact Hw. eauto.
        -- apply Plan_entry_storable.
           ++ rewrite Hw. discriminate.
           ++ rewrite forallb_forall in H. apply H. exact Hin.
    + exists (PlanResponse.mk "plan-stub-1" "stub plan" l []).
      apply Plan_Ok_iff. eauto.
Qed.

End Entries.

(** ** Round-robin placement *)

Section RoundRobin.

Import PlanRequest PlanResponse.

Context {ServicerContext : Type}.
Variable chk : Py.IntValueChecker.
Variable self : PlannerServicer.
Variable ctx : ServicerContext.

(** C9. For a request with at least one worker, the response has one
    assignment per input task, in input order: the [i]-th assignment has the
    id of the [i]-th task, the id of the worker at index [i mod n] of the
    [n] workers, and as [est_duration_sec] the integer [int] truncates the
    task's [estimated_sec] to. The call returns when every duration converts
    to an integer the field can store; otherwise it raises and there is no
    response. *)
Theorem Plan_round_robin (req : PlanRequest.t) :
  workers req <> [] ->
  (forallb (storable chk) (tasks req) = true ->
   exists resp, Plan chk self req ctx = Py.Ok resp)
  /\ forall resp, Plan chk self req ctx = Py.Ok resp ->
       List.length (assignments resp) = List.length (tasks req)
       /\ forall i t, nth_error (tasks req) i = Some t ->
            exists a w,
              nth_error (assignments resp) i = Some a
              /\ nth_error (workers req) (i mod List.length (workers req))
                 = Some w
              /\ Assignment.task_id a = Task.id t
              /\ Assignment.worker_id a = Worker.id w
              /\ Py.int (Task.estimated_sec t)
                 = Py.Ok (Assignment.est_duration_sec a).
Proof.
  intro Hw. split.
  - intro Hs. apply Plan_returns_iff. right. exact Hs.
  - intros resp H. apply Plan_Ok_iff in H. destruct H as [l [Hl ->]]. simpl.
    destruct (Plan_entries_nth _ _ _ _ _ Hl) as [Hlen Hnth].
    split; [exact Hlen |].
    intros i t Hi. destruct (Hnth _ _ Hi) as [a [Ha He]]. simpl in He.
    destruct (Plan_entry_Ok_inv _ _ _ _ _ Hw He) as [w [d [Hwi [Hd [_ ->]]]]].
    exists (Assignment.mk (Task.id t) (Worker.id w) 0 d), w. simpl.
    repeat split; assumption.
Qed.

(** C10. For a request with no worker the call returns, and its response
    holds one assignment per input task, in input order, with the task's id
    and with [worker_id], [start_unix] and [est_duration_sec] at their
    defaults (empty, 0, 0); the list of unplaced task ids is empty. Whatever
    the request, a response has the plan id "plan-stub-1", the status message
    "stub plan" and no unplaced task id. *)
Theorem Plan_without_workers (req : PlanRequest.t) :
  (workers req = [] ->
   Plan chk self req ctx
   = Py.Ok (PlanResponse.mk "plan-stub-1" "stub plan"
              (map (fun t => Assignment.mk (Task.id t) "" 0 0) (tasks req))
              []))
  /\ forall resp, Plan chk self req ctx = Py.Ok resp ->
       plan_id resp = "plan-stub-1"
       /\ status_message resp = "stub plan"
       /\ unplaced_task_id resp = [].
Proof.
  split.
  - apply Plan_no_workers_eq.
  - intros resp H. apply Plan_Ok_iff in H. destruct H as [l [_ ->]].
    repeat split.
Qed.

(** C1. A call returns on every request that has no worker or whose
    durations all convert, and every response is complete: each input task
    appears in exactly one of [assignments] and [unplaced_task_id], so the
    two counts add up to the number of input tasks. *)
Theorem Plan_complete (req : PlanRequest.t) :
  (Plan_returns chk req -> exists resp, Plan chk self req ctx = Py.Ok resp)
  /\ forall resp, Plan chk self req ctx = Py.Ok resp ->
       Contract.complete req resp.
Proof.
  split.
  - apply Plan_returns_iff.
  - intros resp H. apply Plan_Ok_iff in H. destruct H as [l [Hl ->]].
    unfold Contract.complete. simpl.
    rewrite app_nil_r, (Plan_entries_task_ids _ _ _ _ _ Hl).
    destruct (Plan_entries_nth _ _ _ _ _ Hl) as [Hlen _].
    repeat split.
    + apply Permutation_refl.
    + intros x _ [].
    + rewrite Hlen. apply Nat.add_0_r.
Qed.

End RoundRobin.

(** C4. Two planning calls on the same worker list and the same task batch
    have the same outcome, whichever servicer and call context they run
    with: the same response, with the same worker for each task, or the same
    exception. *)
Theorem Plan_deterministic (chk : Py.IntValueChecker)
    (self1 self2 : PlannerServicer) (Context1 Context2 : Type)
    (ctx1 : Context1) (ctx2 : Context2) (req1 req2 : PlanRequest.t) :
  PlanRequest.workers req1 = PlanRequest.workers req2 ->
  PlanRequest.tasks req1 = PlanRequest.tasks req2 ->
  Plan chk self1 req1 ctx1 = Plan chk self2 req2 ctx2.
Proof.
  intros Hw Ht. destruct req1 as [ts1 ws1], req2 as [ts2 ws2].
  simpl in Hw, Ht. subst ws2 ts2. rewrite !Plan_unfold. reflexivity.
Qed.

(** [Plan_round_robin] on three tasks and two workers. *)
Lemma Plan_round_robin_witness :
  PlanRequest.workers Samples.three_on_two <> []
  /\ forallb (storable Py.Int64ValueChecker)
       (PlanRequest.tasks Samples.three_on_two) = true
  /\ exists resp,
       Samples.Plan64 Samples.three_on_two = Py.Ok resp
       /\ List.length (PlanResponse.assignments resp) = 3
       /\ forall i t,
            nth_error (PlanRequest.tasks Samples.three_on_two) i = Some t ->
            exists a w,
              nth_error (PlanResponse.assignments resp) i = Some a
              /\ nth_error (PlanRequest.workers Samples.three_on_two) (i mod 2)
                 = Some w
              /\ Assignment.task_id a = Task.id t
              /\ Assignment.worker_id a = Worker.id w
              /\ Py.int (Task.estimated_sec t)
                 = Py.Ok (Assignment.est_duration_sec a).
Proof.
  assert (Hw : PlanRequest.workers Samples.three_on_two <> [])
    by discriminate.
  destruct (Plan_round_robin Py.Int64ValueChecker PlannerServicer_new tt
              Samples.three_on_two Hw) as [Hret Hshape].
  split; [exact Hw |]. split; [reflexivity |].
  destruct (Hret eq_refl) as [resp Hresp].
  exists resp. split; [exact Hresp |]. exact (Hshape resp Hresp).
Defined.

(** [Plan_without_workers] on one task and no worker, and on the response
    to three tasks on two workers. *)
Lemma Plan_without_workers_witness :
  PlanRequest.workers Samples.one_on_none = []
  /\ Samples.Plan64 Samples.one_on_none = Py.Ok Samples.one_on_none_plan
  /\ PlanResponse.plan_id Samples.three_on_two_plan = "plan-stub-1"
  /\ PlanResponse.status_message Samples.three_on_two_plan = "stub plan"
  /\ PlanResponse.unplaced_task_id Samples.three_on_two_plan = [].
Proof.
  split; [reflexivity |]. split.
  - exact (proj1 (Plan_without_workers Py.Int64ValueChecker
                    PlannerServicer_new tt Samples.one_on_none) eq_refl).
  - exact (proj2 (Plan_without_workers Py.Int64ValueChecker
                    PlannerServicer_new tt Samples.three_on_two)
             Samples.three_on_two_plan eq_refl).
Defined.

(** [Plan_complete] on three tasks and two workers. *)
Lemma Plan_complete_witness :
  Plan_returns Py.Int64ValueChecker Samples.three_on_two
  /\ exists resp,
       Samples.Plan64 Samples.three_on_two = Py.Ok resp
       /\ Contract.complete Samples.three_on_two resp.
Proof.
  assert (Hr : Plan_returns Py.Int64ValueChecker Samples.three_on_two)
    by (right; reflexivity).
  destruct (Plan_complete Py.Int64ValueChecker PlannerServicer_new tt
              Samples.three_on_two) as [Hret Hc].
  split; [exact Hr |].
  destruct (Hret Hr) as [resp Hresp].
  exists resp. split; [exact Hresp | exact (Hc resp Hresp)].
Defined.

(** [Plan_deterministic] on two calls with the same request, made with
    different call contexts. *)
Lemma Plan_deterministic_witness :
  PlanRequest.workers Samples.three_on_two = [Samples.roomy; Samples.tight]
  /\ PlanRequest.tasks Samples.three_on_two
     = [Samples.small; Samples.large; Samples.medium]
  /\ Plan Py.Int64ValueChecker PlannerServicer_new Samples.three_on_two tt
     = Plan Py.Int64ValueChecker PlannerServicer_new
         (PlanRequest.mk [Samples.small; Samples.large; Samples.medium]
            [Samples.roomy; Samples.tight])
         1762128000%Z.
Proof.
  split; [reflexivity |]. split; [reflexivity |].
  exact (Plan_deterministic Py.Int64ValueChecker PlannerServicer_new
           PlannerServicer_new unit Z tt 1762128000%Z Samples.three_on_two
           (PlanRequest.mk [Samples.small; Samples.large; Samples.medium]
              [Samples.roomy; Samples.tight])
           eq_refl eq_refl).
Defined.

(** ** Looking tasks up by id *)

Lemma find_task_by_id (ts : list Task.t) (t : Task.t) :
  NoDup (map Task.id ts) -> In t ts ->
  find (fun t' => String.eqb (Task.id t') (Task.id t)) ts = Some t.
Proof.
  induction ts as [| t0 ts IH]; intros Hnd Hin; [destruct Hin |].
  simpl in Hnd. inversion Hnd as [| x l Hnotin Hnd']; subst.
  simpl. destruct (String.eqb (Task.id t0) (Task.id t)) eqn:E.
  - apply String.eqb_eq in E. destruct Hin as [-> | Hin]; [reflexivity |].
    exfalso. apply Hnotin. rewrite E. apply in_map. exact Hin.
  - destruct Hin as [-> | Hin].
    + rewrite String.eqb_refl in E. discriminate E.
    + apply IH; assumption.
Qed.

(** Assignments that carry the ids of the tasks [ts] of a request, in order,
    refer to those tasks, in order. *)
Lemma processed_in_order (req : PlanRequest.t) (ts : list Task.t) :
  NoDup (map Task.id (PlanRequest.tasks req)) ->
  incl ts (PlanRequest.tasks req) ->
  forall l, map Assignment.task_id l = map Task.id ts ->
            Contract.processed req l = ts.
Proof.
  intros Hnd. induction ts as [| t ts IH]; intros Hincl l Hl.
  - destruct l; [reflexivity | discriminate Hl].
  - destruct l as [| a l]; [discriminate Hl |].
    simpl in Hl. injection Hl as Ha Hl. simpl.
    unfold Contract.task_of. rewrite Ha.
    rewrite (find_task_by_id _ t Hnd) by (apply Hincl; left; reflexivity).
    f_equal. apply IH; [| exact Hl].
    intros x Hx. apply Hincl. right. exact Hx.
Qed.

(** ** What the stub does where the design asks for more *)

Section Stub.

Import PlanRequest PlanResponse.

Context {ServicerContext : Type}.
Variable chk : Py.IntValueChecker.
Variable self : PlannerServicer.
Variable ctx : ServicerContext.

(** C5, as the code has it. For a request with no worker the call returns
    and every input task gets an assignment that names no worker; no task id
    is listed as unplaced and the status message is "stub plan". *)
Theorem Plan_no_worker_entries (req : PlanRequest.t) :
  workers req = [] ->
  exists resp,
    Plan chk self req ctx = Py.Ok resp
    /\ (forall t, In t (tasks req) ->
          In (Task.id t) (map Assignment.task_id (assignments resp))
          /\ ~ In (Task.id t) (unplaced_task_id resp))
    /\ (forall a, In a (assignments resp) -> Contract.placed a = false)
    /\ Contract.status resp = "stub plan".
Proof.
  intro Hw. eexists. split; [apply Plan_no_workers_eq; exact Hw |].
  simpl. repeat split.
  - rewrite map_map. simpl. apply in_map. assumption.
  - intros [].
  - intros a Ha. apply in_map_iff in Ha. destruct Ha as [t [<- _]].
    reflexivity.
Qed.

(** C6, as the code has it. A call returns on every request that has no
    worker or whose durations all convert, and whatever was placed the status
    of the response is the constant "stub plan": never "success", "partial"
    or "rejected-all". *)
Theorem Plan_status_constant (req : PlanRequest.t) :
  (Plan_returns chk req -> exists resp, Plan chk self req ctx = Py.Ok resp)
  /\ forall resp, Plan chk self req ctx = Py.Ok resp ->
       Contract.status resp = "stub plan"
       /\ Contract.status resp <> "success"
       /\ Contract.status resp <> "partial"
       /\ Contract.status resp <> "rejected-all".
Proof.
  split.
  - apply Plan_returns_iff.
  - intros resp H. apply Plan_Ok_iff in H. destruct H as [l [_ ->]].
    unfold Contract.status. simpl. repeat split; discriminate.
Qed.

(** C7, as the code has it. A call returns on every request that has no
    worker or whose durations all convert, and it handles the tasks in
    submission order: the assignments carry the task ids in input order, and
    when the ids are distinct the tasks handled are the input list as it
    stands, whatever the size of the requests. *)
Theorem Plan_submission_order (req : PlanRequest.t) :
  (Plan_returns chk req -> exists resp, Plan chk self req ctx = Py.Ok resp)
  /\ forall resp, Plan chk self req ctx = Py.Ok resp ->
       map Assignment.task_id (assignments resp) = map Task.id (tasks req)
       /\ (NoDup (map Task.id (tasks req)) ->
           Contract.processed req (assignments resp) = tasks req).
Proof.
  split.
  - apply Plan_returns_iff.
  - intros resp H. apply Plan_Ok_iff in H. destruct H as [l [Hl ->]]. simpl.
    pose proof (Plan_entries_task_ids _ _ _ _ _ Hl) as Hids.
    split; [exact Hids |].
    intro Hnd. apply processed_in_order; [exact Hnd | apply incl_refl | exact Hids].
Qed.

(** C8, as the code has it. A call returns on every request that has no
    worker or whose durations all convert, and every assignment of a
    response has [start_unix] 0, whatever the time of the call; a task
    carries no start hint. *)
Theorem Plan_start_zero (req : PlanRequest.t) :
  (Plan_returns chk req -> exists resp, Plan chk self req ctx = Py.Ok resp)
  /\ forall resp, Plan chk self req ctx = Py.Ok resp ->
       forall a, In a (assignments resp) -> Assignment.start_unix a = 0%Z.
Proof.
  split.
  - apply Plan_returns_iff.
  - intros resp H a Ha. apply Plan_Ok_iff in H. destruct H as [l [Hl ->]].
    simpl in Ha.
    destruct (Plan_entries_In_entry _ _ _ _ _ Hl _ Ha) as [i [t [_ He]]].
    apply (Plan_entry_task_id _ _ _ _ _ He).
Qed.

End Stub.

(** *** The design's rules fail on the stub *)

(** C5 fails: with one task and no worker the task is not listed as
    unplaced and the status is not "rejected-all". *)
Lemma Plan_no_worker_not_rejected :
  Samples.Plan64 Samples.one_on_none = Py.Ok Samples.one_on_none_plan
  /\ ~ Contract.rejected_all Samples.one_on_none Samples.one_on_none_plan.
Proof.
  split; [reflexivity |].
  intros [_ [_ H]]. discriminate H.
Qed.

(** [Plan_no_worker_entries] on one task and no worker. *)
Lemma Plan_no_worker_entries_witness :
  PlanRequest.workers Samples.one_on_none = []
  /\ exists resp,
       Samples.Plan64 Samples.one_on_none = Py.Ok resp
       /\ (forall t, In t (PlanRequest.tasks Samples.one_on_none) ->
             In (Task.id t)
                (map Assignment.task_id (PlanResponse.assignments resp))
             /\ ~ In (Task.id t) (PlanResponse.unplaced_task_id resp))
       /\ (forall a, In a (PlanResponse.assignments resp) ->
             Contract.placed a = false)
       /\ Contract.status resp = "stub plan".
Proof.
  split; [reflexivity |].
  exact (Plan_no_worker_entries Py.Int64ValueChecker PlannerServicer_new tt
           Samples.one_on_none eq_refl).
Defined.

(** C6 fails: with one task placed on one of two workers nothing is
    unplaced, and the status is not "success". *)
Lemma Plan_status_not_success :
  Samples.Plan64 Samples.one_on_two = Py.Ok Samples.one_on_two_plan
  /\ ~ Contract.status_rule Samples.one_on_two Samples.one_on_two_plan.
Proof.
  split; [reflexivity |].
  intros [[_ H] _]. specialize (H eq_refl). discriminate H.
Qed.

(** [Plan_status_constant] on one task and two workers. *)
Lemma Plan_status_constant_witness :
  Plan_returns Py.Int64ValueChecker Samples.one_on_two
  /\ exists resp,
       Samples.Plan64 Samples.one_on_two = Py.Ok resp
       /\ Contract.status resp = "stub plan"
       /\ Contract.status resp <> "success"
       /\ Contract.status resp <> "partial"
       /\ Contract.status resp <> "rejected-all".
Proof.
  assert (Hr : Plan_returns Py.Int64ValueChecker Samples.one_on_two)
    by (right; reflexivity).
  destruct (Plan_status_constant Py.Int64ValueChecker PlannerServicer_new tt
              Samples.one_on_two) as [Hret Hs].
  split; [exact Hr |].
  destruct (Hret Hr) as [resp Hresp].
  exists resp. split; [exact Hresp | exact (Hs resp Hresp)].
Defined.

(** C7 fails: the smaller task, submitted first, is handled first, however
    the requests are normalised. *)
Lemma Plan_not_largest_first :
  Samples.Plan64 Samples.two_on_tight = Py.Ok Samples.two_on_tight_plan
  /\ forall ncpu nmem ngpu : Q,
       (0 < ncpu)%Q -> (0 < nmem)%Q -> (0 < ngpu)%Q ->
       ~ Contract.largest_first ncpu nmem ngpu
           Samples.two_on_tight Samples.two_on_tight_plan.
Proof.
  split; [reflexivity |].
  intros ncpu nmem ngpu Hc Hm Hg H.
  specialize (H 0 1 Samples.small Samples.large (Nat.lt_0_succ 0)
                eq_refl eq_refl).
  unfold Contract.request_norm2 in H. simpl in H. unfold Qdiv in H.
  apply Qinv_lt_0_compat in Hc, Hm, Hg.
  revert H Hc Hm Hg.
  generalize (/ ncpu)%Q (/ nmem)%Q (/ ngpu)%Q. intros x y z H Hx Hy Hz.
  nra.
Qed.

(** [Plan_submission_order] on a small task submitted before a large one. *)
Lemma Plan_submission_order_witness :
  Plan_returns Py.Int64ValueChecker Samples.two_on_tight
  /\ NoDup (map Task.id (PlanRequest.tasks Samples.two_on_tight))
  /\ exists resp,
       Samples.Plan64 Samples.two_on_tight = Py.Ok resp
       /\ map Assignment.task_id (PlanResponse.assignments resp)
          = ["small"; "large"]
       /\ Contract.processed Samples.two_on_tight
            (PlanResponse.assignments resp)
          = [Samples.small; Samples.large].
Proof.
  assert (Hr : Plan_returns Py.Int64ValueChecker Samples.two_on_tight)
    by (right; reflexivity).
  assert (Hnd : NoDup (map Task.id (PlanRequest.tasks Samples.two_on_tight))).
  { repeat constructor; simpl; intuition discriminate. }
  destruct (Plan_submission_order Py.Int64ValueChecker PlannerServicer_new tt
              Samples.two_on_tight) as [Hret Ho].
  split; [exact Hr |]. split; [exact Hnd |].
  destruct (Hret Hr) as [resp Hresp].
  exists resp. split; [exact Hresp |].
  destruct (Ho resp Hresp) as [Hids Hp].
  split; [exact Hids | exact (Hp Hnd)].
Defined.

(** C8 fails: at any time after the epoch, with or without a start hint,
    the accepted assignment does not start at the time the rule gives. *)
Lemma Plan_start_not_now :
  Samples.Plan64 Samples.one_on_two = Py.Ok Samples.one_on_two_plan
  /\ forall (now : Z) (hint : Task.t -> option Z),
       (0 < now)%Z ->
       ~ Contract.start_rule now hint
           Samples.one_on_two Samples.one_on_two_plan.
Proof.
  split; [reflexivity |].
  intros now hint Hnow H.
  specialize (H (Assignment.mk "small" "w1" 0 2) Samples.small
                (or_introl eq_refl) eq_refl eq_refl).
  simpl in H. destruct (hint Samples.small) as [h |].
  - destruct (now <? h)%Z eqn:E; [apply Z.ltb_lt in E |]; lia.
  - lia.
Qed.

(** [Plan_start_zero] on three tasks and two workers. *)
Lemma Plan_start_zero_witness :
  Plan_returns Py.Int64ValueChecker Samples.three_on_two
  /\ exists resp,
       Samples.Plan64 Samples.three_on_two = Py.Ok resp
       /\ forall a, In a (PlanResponse.assignments resp) ->
                    Assignment.start_unix a = 0%Z.
Proof.
  assert (Hr : Plan_returns Py.Int64ValueChecker Samples.three_on_two)
    by (right; reflexivity).
  destruct (Plan_start_zero Py.Int64ValueChecker PlannerServicer_new tt
              Samples.three_on_two) as [Hret Hz].
  split; [exact Hr |].
  destruct (Hret Hr) as [resp Hresp].
  exists resp. split; [exact Hresp | exact (Hz resp Hresp)].
Defined.

(** ** Placement looks at positions and ids only *)

Section Blind.

Import PlanRequest PlanResponse.

Context {ServicerContext : Type}.
Variable chk : Py.IntValueChecker.
Variable self : PlannerServicer.
Variable ctx : ServicerContext.

Lemma Plan_entry_reads (req req' : PlanRequest.t) (i : nat) (t t' : Task.t) :
  map Worker.id (workers req) = map Worker.id (workers req') ->
  Contract.reads_of_task t = Contract.reads_of_task t' ->
  Plan_entry chk req i t = Plan_entry chk req' i t'.
Proof.
  intros Hw Ht. injection Ht as Hid Hsec.
  assert (Hlen : List.length (workers req) = List.length (workers req')).
  { rewrite <- (length_map Worker.id (workers req)), Hw. apply length_map. }
  unfold Plan_entry. rewrite Hlen, Hid, Hsec.
  destruct (0 <? List.length (workers req')); [| reflexivity].
  unfold Py.getitem.
  pose proof (f_equal (fun l => nth_error l (i mod List.length (workers req')))
                Hw) as Hn.
  simpl in Hn. rewrite !nth_error_map in Hn.
  destruct (nth_error (workers req) (i mod List.length (workers req')))
    as [w |];
    destruct (nth_error (workers req') (i mod List.length (workers req')))
    as [w' |]; simpl in Hn; try discriminate Hn; [| reflexivity].
  injection Hn as Hn. simpl. rewrite Hn. reflexivity.
Qed.

Lemma Plan_entries_reads (req req' : PlanRequest.t) :
  map Worker.id (workers req) = map Worker.id (workers req') ->
  forall (ts ts' : list Task.t) (k : nat),
    map Contract.reads_of_task ts = map Contract.reads_of_task ts' ->
    Plan_entries chk req k ts = Plan_entries chk req' k ts'.
Proof.
  intro Hw. induction ts as [| t ts IH]; intros [| t' ts'] k H;
    try discriminate H; [reflexivity |].
  simpl in H. injection H as Hsec Hid Hrest. simpl.
  rewrite (Plan_entry_reads req req' k t t' Hw)
    by (unfold Contract.reads_of_task; congruence).
  rewrite (IH ts' (S k)) by exact Hrest. reflexivity.
Qed.

Lemma Plan_reads (req req' : PlanRequest.t) :
  Contract.same_reads req req' ->
  Plan chk self req ctx = Plan chk self req' ctx.
Proof.
  intros [Hw Ht]. rewrite !Plan_unfold.
  rewrite (Plan_entries_reads req req' Hw _ _ 0 Ht). reflexivity.
Qed.

(** C3, as the code has it. On a request with at least one worker the call
    returns when every duration converts, and the worker chosen for a task
    is the one at index [i mod n] of the [n] workers, [i] being the position
    of the task in the request: the [i]-th assignment carries the id of the
    [i]-th task and the id of that worker, there is no other assignment, and
    when the task ids are distinct every assignment that carries the id of
    the [i]-th task names that worker. Residual capacity, fragmentation
    score and the order of the worker ids do not enter: a request that
    differs only in resource requests and capacities gets the same
    response. *)
Theorem Plan_choice_by_position (req : PlanRequest.t) :
  workers req <> [] ->
  (forallb (storable chk) (tasks req) = true ->
   exists resp, Plan chk self req ctx = Py.Ok resp)
  /\ forall resp, Plan chk self req ctx = Py.Ok resp ->
       (forall i t, nth_error (tasks req) i = Some t ->
          exists a w,
            nth_error (assignments resp) i = Some a
            /\ Assignment.task_id a = Task.id t
            /\ nth_error (workers req) (i mod List.length (workers req))
               = Some w
            /\ Assignment.worker_id a = Worker.id w)
       /\ List.length (assignments resp) = List.length (tasks req)
       /\ (NoDup (map Task.id (tasks req)) ->
           forall i t a,
             nth_error (tasks req) i = Some t ->
             In a (assignments resp) ->
             Assignment.task_id a = Task.id t ->
             exists w,
               nth_error (workers req) (i mod List.length (workers req))
               = Some w
               /\ Assignment.worker_id a = Worker.id w)
       /\ forall req', Contract.same_reads req req' ->
                       Plan chk self req' ctx = Py.Ok resp.
Proof.
  intro Hw. split.
  - intro Hs. apply Plan_returns_iff. right. exact Hs.
  - intros resp H.
    assert (Hpos : forall i t, nth_error (tasks req) i = Some t ->
              exists a w,
                nth_error (assignments resp) i = Some a
                /\ Assignment.task_id a = Task.id t
                /\ nth_error (workers req) (i mod List.length (workers req))
                   = Some w
                /\ Assignment.worker_id a = Worker.id w).
    { pose proof H as H'. apply Plan_Ok_iff in H'.
      destruct H' as [l [Hl ->]]. cbn [assignments].
      destruct (Plan_entries_nth _ _ _ _ _ Hl) as [_ Hnth].
      intros i t Ht. destruct (Hnth _ _ Ht) as [a [Ha He]]. simpl in He.
      destruct (Plan_entry_Ok_inv _ _ _ _ _ Hw He)
        as [w [d [Hwi [_ [_ ->]]]]].
      exists (Assignment.mk (Task.id t) (Worker.id w) 0 d), w.
      repeat split; assumption. }
    assert (Hlen : List.length (assignments resp) = List.length (tasks req)).
    { pose proof H as H'. apply Plan_Ok_iff in H'.
      destruct H' as [l [Hl ->]]. cbn [assignments].
      apply (Plan_entries_nth _ _ _ _ _ Hl). }
    split; [exact Hpos |]. split; [exact Hlen |]. split.
    + intros Hnd i t a Hi Hin Hid.
      apply In_nth_error in Hin. destruct Hin as [k Hk].
      assert (Hklt : k < List.length (tasks req)).
      { rewrite <- Hlen. apply nth_error_Some. rewrite Hk. discriminate. }
      destruct (nth_error (tasks req) k) as [tk |] eqn:Htk;
        [| apply nth_error_Some in Hklt; contradiction].
      destruct (Hpos k tk Htk) as [a' [w [Ha' [Hid' [Hwk Hwid]]]]].
      rewrite Hk in Ha'. injection Ha' as <-.
      assert (Hki : k = i).
      { rewrite NoDup_nth_error in Hnd. apply Hnd.
        - rewrite length_map. exact Hklt.
        - rewrite !nth_error_map, Htk, Hi. simpl. congruence. }
      subst k. exists w. split; assumption.
    + intros req' Hsame. rewrite <- (Plan_reads req req' Hsame). exact H.
Qed.

End Blind.

(** C3 fails: the one task fits both workers and would leave the second
    one full (score 0), yet it goes to the first, which it leaves at 7/8 in
    every dimension. *)
Lemma Plan_not_best_fit :
  Samples.Plan64 Samples.one_on_two = Py.Ok Samples.one_on_two_plan
  /\ ~ Contract.best_fit_plan Samples.one_on_two Samples.one_on_two_plan.
Proof.
  split; [reflexivity |].
  intro H.
  destruct (H 0 (Assignment.mk "small" "w1" 0 2) eq_refl eq_refl)
    as [t [w [Ht [Hw [_ Hbest]]]]].
  cbv in Ht. injection Ht as <-.
  cbv in Hw. injection Hw as <-.
  specialize (Hbest Samples.tight (or_intror (or_introl eq_refl)) eq_refl).
  destruct Hbest as [Hlt | [Heq _]].
  - vm_compute in Hlt. discriminate Hlt.
  - vm_compute in Heq. discriminate Heq.
Qed.

(** [Plan_choice_by_position] on three tasks and two workers, and on the
    same request resized so that no task fits the first worker: the tasks at
    positions 0 and 2 go to the first worker and the task at position 1 to
    the second, by position and by task id. *)
Lemma Plan_choice_by_position_witness :
  PlanRequest.workers Samples.three_on_two <> []
  /\ forallb (storable Py.Int64ValueChecker)
       (PlanRequest.tasks Samples.three_on_two) = true
  /\ NoDup (map Task.id (PlanRequest.tasks Samples.three_on_two))
  /\ Contract.same_reads Samples.three_on_two Samples.three_on_two_resized
  /\ exists resp,
       Samples.Plan64 Samples.three_on_two = Py.Ok resp
       /\ (forall i t,
             nth_error (PlanRequest.tasks Samples.three_on_two) i = Some t ->
             exists a w,
               nth_error (PlanResponse.assignments resp) i = Some a
               /\ Assignment.task_id a = Task.id t
               /\ nth_error (PlanRequest.workers Samples.three_on_two)
                    (i mod 2)
                  = Some w
               /\ Assignment.worker_id a = Worker.id w)
       /\ List.length (PlanResponse.assignments resp) = 3
       /\ (forall a, In a (PlanResponse.assignments resp) ->
                     Assignment.task_id a = "large" ->
                     exists w,
                       nth_error (PlanRequest.workers Samples.three_on_two)
                         (1 mod 2)
                       = Some w
                       /\ Assignment.worker_id a = Worker.id w)
       /\ Samples.Plan64 Samples.three_on_two_resized = Py.Ok resp.
Proof.
  assert (Hw : PlanRequest.workers Samples.three_on_two <> [])
    by discriminate.
  assert (Hnd : NoDup (map Task.id (PlanRequest.tasks Samples.three_on_two))).
  { repeat constructor; simpl; intuition discriminate. }
  assert (Hsame : Contract.same_reads Samples.three_on_two
                    Samples.three_on_two_resized)
    by (split; reflexivity).
  destruct (Plan_choice_by_position Py.Int64ValueChecker PlannerServicer_new
              tt Samples.three_on_two Hw) as [Hret Hc].
  split; [exact Hw |]. split; [reflexivity |]. split; [exact Hnd |].
  split; [exact Hsame |].
  destruct (Hret eq_refl) as [resp Hresp].
  destruct (Hc resp Hresp) as [Hpos [Hlen [Hkey Hblind]]].
  exists resp. split; [exact Hresp |].
  split; [exact Hpos |]. split; [exact Hlen |]. split.
  - intros a Hin Hid. exact (Hkey Hnd 1 Samples.large a eq_refl Hin Hid).
  - exact (Hblind _ Hsame).
Defined.

(** ** What round-robin allocates on a worker *)

Lemma nth_worker_id_eqb (ws : list Worker.t) (i j : nat) (w w' : Worker.t) :
  NoDup (map Worker.id ws) ->
  nth_error ws j = Some w -> nth_error ws i = Some w' ->
  String.eqb (Worker.id w') (Worker.id w) = (i =? j).
Proof.
  intros Hnd Hj Hi. destruct (Nat.eqb_spec i j) as [-> | Hne].
  - rewrite Hi in Hj. injection Hj as ->. apply String.eqb_refl.
  - apply String.eqb_neq. intro Heq. apply Hne.
    rewrite NoDup_nth_error in Hnd. apply Hnd.
    + rewrite length_map. apply nth_error_Some. rewrite Hi. discriminate.
    + rewrite !nth_error_map, Hi, Hj. simpl. congruence.
Qed.

Section Load.

Import PlanRequest PlanResponse.

Context {ServicerContext : Type}.
Variable chk : Py.IntValueChecker.
Variable self : PlannerServicer.
Variable ctx : ServicerContext.

Variable req : PlanRequest.t.
Variable j : nat.
Variable w : Worker.t.
Hypothesis task_ids : NoDup (map Task.id (tasks req)).
Hypothesis worker_ids : NoDup (map Worker.id (workers req)).
Hypothesis w_at_j : nth_error (workers req) j = Some w.

Lemma some_worker : workers req <> [].
Proof.
  intro H. rewrite H in w_at_j. destruct j; discriminate w_at_j.
Qed.

(** The entries that name [w] are those of the tasks at the positions of its
    share, and each allocates what its task requests. *)
Lemma Plan_entries_share (dim : Task.t -> Q) (ts : list Task.t) :
  forall (k : nat) (l : list Assignment.t),
    incl ts (tasks req) ->
    Plan_entries chk req k ts = Py.Ok l ->
    map (Contract.allocation dim req)
        (filter (fun a => String.eqb (Assignment.worker_id a) (Worker.id w)) l)
    = map dim
        (map snd
           (filter (fun it => fst it mod List.length (workers req) =? j)
                   (Py.enumerate_from k ts))).
Proof.
  induction ts as [| t ts IH]; intros k l Hincl H; simpl in H.
  - injection H as <-. reflexivity.
  - bind_inv H a Ha.
    bind_inv H l' Hl'.
    injection H as <-.
    destruct (Plan_entry_Ok_inv _ _ _ _ _ some_worker Ha)
      as [wk [d [Hwk [_ [_ ->]]]]].
    assert (Hrest : incl ts (tasks req))
      by (intros x Hx; apply Hincl; right; exact Hx).
    specialize (IH (S k) l' Hrest Hl').
    cbn [filter Py.enumerate_from fst Assignment.worker_id].
    rewrite (nth_worker_id_eqb _ _ _ _ _ worker_ids w_at_j Hwk).
    destruct (k mod List.length (workers req) =? j).
    + cbn [map snd]. rewrite IH. f_equal.
      unfold Contract.allocation, Contract.task_of.
      cbn [Assignment.task_id].
      rewrite (find_task_by_id _ t task_ids) by (apply Hincl; left; reflexivity).
      reflexivity.
    + exact IH.
Qed.

(** C2, as the code has it. On a request whose task ids are distinct and
    whose worker ids are distinct, the call returns when every duration
    converts, and what it allocates on the worker at position [j] is, in
    each dimension, the sum of the requests of the tasks at the input
    positions [i] with [i mod n = j]. The allocation stays within the
    worker's capacity exactly when the capacity covers these sums; the
    planner compares nothing with the capacity. *)
Theorem Plan_load_is_share :
  (forallb (storable chk) (tasks req) = true ->
   exists resp, Plan chk self req ctx = Py.Ok resp)
  /\ forall resp, Plan chk self req ctx = Py.Ok resp ->
       (forall dim : Task.t -> Q,
          Contract.load dim req (assignments resp) w
          = Contract.Qsum
              (map dim (Contract.share (List.length (workers req)) j
                          (tasks req))))
       /\ (Contract.within_capacity req (assignments resp) w
           <-> let mine :=
                 Contract.share (List.length (workers req)) j (tasks req) in
               (Contract.Qsum (map Task.cpu_request mine)
                <= Worker.cpu_capacity w)%Q
               /\ (Contract.Qsum (map Task.memory_request mine)
                   <= Worker.memory_capacity w)%Q
               /\ (Contract.Qsum (map Task.gpu_request mine)
                   <= Worker.gpu_capacity w)%Q).
Proof.
  split.
  - intro Hs. apply Plan_returns_iff. right. exact Hs.
  - intros resp H. apply Plan_Ok_iff in H. destruct H as [l [Hl ->]].
    cbn [assignments].
    assert (Hload : forall dim : Task.t -> Q,
               Contract.load dim req l w
               = Contract.Qsum
                   (map dim (Contract.share (List.length (workers req)) j
                               (tasks req)))).
    { intro dim. unfold Contract.load, Contract.share, Py.enumerate.
      rewrite (Plan_entries_share dim (tasks req) 0 l (incl_refl _) Hl).
      reflexivity. }
    split; [exact Hload |].
    unfold Contract.within_capacity. cbv zeta. rewrite !Hload. reflexivity.
Qed.

End Load.

(** C2 fails: two tasks that ask for 1 and 2 of each resource both go to
    the one worker, whose capacity is 1. *)
Lemma Plan_over_capacity :
  Samples.Plan64 Samples.two_on_tight = Py.Ok Samples.two_on_tight_plan
  /\ ~ Contract.capacity_invariant
         Samples.two_on_tight Samples.two_on_tight_plan.
Proof.
  split; [reflexivity |].
  intro H.
  destruct (H Samples.tight (or_introl eq_refl)) as [Hcpu _].
  - exists (Assignment.mk "small" "w2" 0 2).
    split; [left; reflexivity | reflexivity].
  - vm_compute in Hcpu. apply Hcpu. reflexivity.
Qed.

(** [Plan_load_is_share] for the first of two workers, which gets the
    first and the third of three tasks. *)
Lemma Plan_load_is_share_witness :
  NoDup (map Task.id (PlanRequest.tasks Samples.three_on_two))
  /\ NoDup (map Worker.id (PlanRequest.workers Samples.three_on_two))
  /\ nth_error (PlanRequest.workers Samples.three_on_two) 0
     = Some Samples.roomy
  /\ forallb (storable Py.Int64ValueChecker)
       (PlanRequest.tasks Samples.three_on_two) = true
  /\ exists resp,
       Samples.Plan64 Samples.three_on_two = Py.Ok resp
       /\ Contract.load Task.memory_request Samples.three_on_two
            (PlanResponse.assignments resp) Samples.roomy
          = Contract.Qsum (map Task.memory_request
                             [Samples.small; Samples.medium])
       /\ Contract.within_capacity Samples.three_on_two
            (PlanResponse.assignments resp) Samples.roomy.
Proof.
  assert (Ht : NoDup (map Task.id (PlanRequest.tasks Samples.three_on_two))).
  { repeat constructor; simpl; intuition discriminate. }
  assert (Hw : NoDup (map Worker.id
                        (PlanRequest.workers Samples.three_on_two))).
  { repeat constructor; simpl; intuition discriminate. }
  destruct (Plan_load_is_share Py.Int64ValueChecker PlannerServicer_new tt
              Samples.three_on_two 0 Samples.roomy Ht Hw eq_refl)
    as [Hret Hl].
  split; [exact Ht |]. split; [exact Hw |]. split; [reflexivity |].
  split; [reflexivity |].
  destruct (Hret eq_refl) as [resp Hresp].
  destruct (Hl resp Hresp) as [Hload Hcap].
  exists resp. split; [exact Hresp |].
  split; [exact (Hload Task.memory_request) |].
  apply Hcap. cbv zeta. repeat split; vm_compute; discriminate.
Defined.

(** ** Batches: failure, prefixes and composition *)

Section Batches.

Import PlanRequest PlanResponse.

Context {ServicerContext : Type}.
Variable chk : Py.IntValueChecker.
Variable self : PlannerServicer.
Variable ctx : ServicerContext.

(** An entry depends on the request through its workers only. *)
Lemma Plan_entry_workers (req req' : PlanRequest.t) (i : nat) (t : Task.t) :
  workers req = workers req' ->
  Plan_entry chk req i t = Plan_entry chk req' i t.
Proof.
  intro H. unfold Plan_entry. rewrite H. reflexivity.
Qed.

Lemma Plan_entries_workers (req req' : PlanRequest.t) (ts : list Task.t) :
  workers req = workers req' ->
  forall k, Plan_entries chk req k ts = Plan_entries chk req' k ts.
Proof.
  intro H. induction ts as [| t ts IH]; intro k; simpl; [reflexivity |].
  rewrite (Plan_entry_workers req req' k t H), IH. reflexivity.
Qed.

(** The entries of a batch split at any point. *)
Lemma Plan_entries_app (req : PlanRequest.t) (ts1 ts2 : list Task.t) :
  forall k,
    Plan_entries chk req k (ts1 ++ ts2)%list
    = (l1 <- Plan_entries chk req k ts1;;
       l2 <- Plan_entries chk req (k + List.length ts1) ts2;;
       Py.Ok (l1 ++ l2)%list).
Proof.
  induction ts1 as [| t ts1 IH]; intro k; simpl.
  - rewrite Nat.add_0_r. destruct (Plan_entries chk req k ts2); reflexivity.
  - destruct (Plan_entry chk req k t) as [a | e]; simpl; [| reflexivity].
    rewrite IH, Nat.add_succ_r. simpl.
    destruct (Plan_entries chk req (S k) ts1) as [l1 | e]; simpl;
      [| reflexivity].
    destruct (Plan_entries chk req (S (k + List.length ts1)) ts2);
      reflexivity.
Qed.

(** Entries repeat with the period of the worker list. *)
Lemma Plan_entry_shift (req : PlanRequest.t) (i m : nat) (t : Task.t) :
  Plan_entry chk req (i + m * List.length (workers req)) t
  = Plan_entry chk req i t.
Proof.
  unfold Plan_entry. rewrite Nat.Div0.mod_add. reflexivity.
Qed.

Lemma Plan_entries_shift (req : PlanRequest.t) (m : nat) (ts : list Task.t) :
  forall k,
    Plan_entries chk req (k + m * List.length (workers req)) ts
    = Plan_entries chk req k ts.
Proof.
  induction ts as [| t ts IH]; intro k; simpl; [reflexivity |].
  rewrite Plan_entry_shift. rewrite <- (IH (S k)). reflexivity.
Qed.

Lemma Plan_entries_storable (req : PlanRequest.t) (ts : list Task.t) :
  workers req <> [] -> forallb (storable chk) ts = true ->
  forall k, exists l, Plan_entries chk req k ts = Py.Ok l.
Proof.
  intros Hw Hs k. apply Plan_entries_returns. intros i t Hin.
  apply Plan_entry_storable; [exact Hw |].
  rewrite forallb_forall in Hs. apply Hs. exact Hin.
Qed.

Lemma Plan_entry_duration_error (req : PlanRequest.t) (i : nat) (t : Task.t)
    (e : Py.exn) :
  workers req <> [] -> Batch.duration_error chk t = Some e ->
  Plan_entry chk req i t = Py.Raise e.
Proof.
  intros Hw He. unfold Plan_entry, Batch.duration_error in *.
  destruct (0 <? List.length (workers req)) eqn:Hn.
  - apply Nat.ltb_lt in Hn.
    assert (Hi : i mod List.length (workers req) < List.length (workers req))
      by (apply Nat.mod_upper_bound; lia).
    apply nth_error_Some in Hi. unfold Py.getitem.
    destruct (nth_error (workers req) (i mod List.length (workers req)))
      as [w |]; [| contradiction].
    simpl. destruct (Py.int (Task.estimated_sec t)) as [d | e0]; simpl.
    + destruct (Py.CheckValue chk d) as [d' | e1]; simpl;
        [discriminate He | congruence].
    + congruence.
  - apply workers_test in Hn. contradiction.
Qed.

(** X1. With at least one worker, the call ends with the exception of the
    first task whose duration is not stored: what [int] raises on it
    (ValueError for a NaN, OverflowError for an infinity), or the ValueError
    of the field's range check. The tasks before it get no response, and the
    tasks after it are not looked at. *)
Theorem Plan_raises_at_first_failure (req : PlanRequest.t)
    (ts1 ts2 : list Task.t) (t : Task.t) (e : Py.exn) :
  workers req <> [] ->
  tasks req = (ts1 ++ t :: ts2)%list ->
  forallb (storable chk) ts1 = true ->
  Batch.duration_error chk t = Some e ->
  Plan chk self req ctx = Py.Raise e.
Proof.
  intros Hw Hts Hs He. rewrite Plan_unfold, Hts, Plan_entries_app.
  destruct (Plan_entries_storable req ts1 Hw Hs 0) as [l1 ->]. simpl.
  rewrite (Plan_entry_duration_error req _ t e Hw He). reflexivity.
Qed.

(** X2. Appending tasks to a batch leaves the earlier tasks their
    assignments: when the call on [ts1 ++ ts2] returns, the call on [ts1]
    with the same workers returns the first [length ts1] of its
    assignments. *)
Theorem Plan_prefix_stable (req : PlanRequest.t) (ts1 ts2 : list Task.t)
    (resp : PlanResponse.t) :
  Plan chk self (Batch.with_tasks req (ts1 ++ ts2)%list) ctx = Py.Ok resp ->
  Plan chk self (Batch.with_tasks req ts1) ctx
  = Py.Ok (PlanResponse.mk "plan-stub-1" "stub plan"
             (firstn (List.length ts1) (assignments resp)) []).
Proof.
  intro H. apply Plan_Ok_iff in H. destruct H as [l [Hl ->]].
  cbn [tasks Batch.with_tasks] in Hl. rewrite Plan_entries_app in Hl.
  bind_inv Hl l1 Hl1. bind_inv Hl l2 Hl2. injection Hl as <-.
  rewrite Plan_unfold. cbn [tasks Batch.with_tasks assignments].
  rewrite (Plan_entries_workers (Batch.with_tasks req ts1)
             (Batch.with_tasks req (ts1 ++ ts2)%list) ts1 eq_refl 0), Hl1.
  simpl.
  destruct (Plan_entries_nth _ _ _ _ _ Hl1) as [Hlen _].
  rewrite <- Hlen, firstn_app, Nat.sub_diag, firstn_all, firstn_O, app_nil_r.
  reflexivity.
Qed.

(** X3. Batches compose at multiples of the number of workers: when the
    length of [ts1] is a multiple of the number of workers, the call on
    [ts1 ++ ts2] does what the call on [ts1] followed by the call on [ts2]
    does, returning the assignments of the first followed by those of the
    second, or raising what the first of them to fail raises. *)
Theorem Plan_batches_compose (req : PlanRequest.t) (ts1 ts2 : list Task.t)
    (m : nat) :
  List.length ts1 = m * List.length (workers req) ->
  Plan chk self (Batch.with_tasks req (ts1 ++ ts2)%list) ctx
  = (r1 <- Plan chk self (Batch.with_tasks req ts1) ctx;;
     r2 <- Plan chk self (Batch.with_tasks req ts2) ctx;;
     Py.Ok (PlanResponse.mk "plan-stub-1" "stub plan"
              (assignments r1 ++ assignments r2)%list [])).
Proof.
  intro Hm. rewrite !Plan_unfold. cbn [tasks Batch.with_tasks].
  rewrite Plan_entries_app.
  rewrite (Plan_entries_workers (Batch.with_tasks req (ts1 ++ ts2)%list)
             (Batch.with_tasks req ts1) ts1 eq_refl 0).
  rewrite (Plan_entries_workers (Batch.with_tasks req (ts1 ++ ts2)%list)
             (Batch.with_tasks req ts2) ts2 eq_refl).
  rewrite Hm.
  change (List.length (workers req))
    with (List.length (workers (Batch.with_tasks req ts2))).
  rewrite (Plan_entries_shift (Batch.with_tasks req ts2) m ts2 0).
  destruct (Plan_entries chk (Batch.with_tasks req ts1) 0 ts1) as [l1 | e];
    simpl; [| reflexivity].
  destruct (Plan_entries chk (Batch.with_tasks req ts2) 0 ts2) as [l2 | e];
    reflexivity.
Qed.

End Batches.

(** ** Round-robin is balanced *)

Lemma share_size_succ (total n j : nat) :
  j < n ->
  Batch.share_size (S total) n j
  = Batch.share_size total n j + (if total mod n =? j then 1 else 0).
Proof.
  intro Hj. unfold Batch.share_size.
  pose proof (Nat.div_mod_eq total n) as Hdm.
  pose proof (Nat.mod_upper_bound total n ltac:(lia)) as Hr.
  set (q := total / n) in *. set (r := total mod n) in *.
  destruct (Nat.eqb_spec r j) as [Heq | Hne].
  - rewrite <- (Nat.div_unique (total + n - 1 - j) n q (n - 1)) by nia.
    rewrite <- (Nat.div_unique (S total + n - 1 - j) n (q + 1) 0) by nia.
    reflexivity.
  - destruct (Nat.lt_ge_cases r j) as [Hlt | Hge].
    + rewrite <- (Nat.div_unique (total + n - 1 - j) n q (r + n - 1 - j))
        by nia.
      rewrite <- (Nat.div_unique (S total + n - 1 - j) n q (r + n - j))
        by nia.
      lia.
    + rewrite <- (Nat.div_unique (total + n - 1 - j) n (q + 1) (r - 1 - j))
        by nia.
      rewrite <- (Nat.div_unique (S total + n - 1 - j) n (q + 1) (r - j))
        by nia.
      lia.
Qed.

Lemma enumerate_from_snoc (ts : list Task.t) (t : Task.t) :
  forall k,
    Py.enumerate_from k (ts ++ [t])%list
    = (Py.enumerate_from k ts ++ [(k + List.length ts, t)])%list.
Proof.
  induction ts as [| t0 ts IH]; intro k; simpl.
  - rewrite Nat.add_0_r. reflexivity.
  - rewrite IH, Nat.add_succ_r. reflexivity.
Qed.

(** Of the first [length ts] positions, [share_size] fall to position [j]. *)
Lemma share_positions (n j : nat) (ts : list Task.t) :
  j < n ->
  List.length (filter (fun it => fst it mod n =? j) (Py.enumerate_from 0 ts))
  = Batch.share_size (List.length ts) n j.
Proof.
  intro Hj. induction ts as [| t ts IH] using rev_ind.
  - simpl. unfold Batch.share_size. symmetry. apply Nat.div_small. lia.
  - rewrite enumerate_from_snoc, filter_app, !length_app, IH.
    rewrite Nat.add_comm with (n := List.length ts) (m := List.length [t]).
    cbn [List.length Nat.add filter fst].
    rewrite share_size_succ by exact Hj.
    destruct (List.length ts mod n =? j); reflexivity.
Qed.

Section Balance.

Import PlanRequest PlanResponse.

Context {ServicerContext : Type}.
Variable chk : Py.IntValueChecker.
Variable self : PlannerServicer.
Variable ctx : ServicerContext.

Variable req : PlanRequest.t.
Hypothesis worker_ids : NoDup (map Worker.id (workers req)).

(** The entries that name the worker at position [j] are as many as the
    positions of its share. *)
Lemma Plan_entries_named (j : nat) (w : Worker.t) (ts : list Task.t) :
  nth_error (workers req) j = Some w ->
  forall (k : nat) (l : list Assignment.t),
    Plan_entries chk req k ts = Py.Ok l ->
    List.length
      (filter (fun a => String.eqb (Assignment.worker_id a) (Worker.id w)) l)
    = List.length
        (filter (fun it => fst it mod List.length (workers req) =? j)
                (Py.enumerate_from k ts)).
Proof.
  intro Hj. induction ts as [| t ts IH]; intros k l H; simpl in H.
  - injection H as <-. reflexivity.
  - bind_inv H a Ha. bind_inv H l' Hl'. injection H as <-.
    destruct (Plan_entry_Ok_inv _ _ _ _ _ (some_worker req j w Hj) Ha)
      as [wk [d [Hwk [_ [_ ->]]]]].
    specialize (IH (S k) l' Hl').
    cbn [filter Py.enumerate_from fst Assignment.worker_id].
    rewrite (nth_worker_id_eqb _ _ _ _ _ worker_ids Hj Hwk).
    destruct (k mod List.length (workers req) =? j); simpl; rewrite IH;
      reflexivity.
Qed.

Lemma Plan_assigned_count (j : nat) (w : Worker.t) (resp : PlanResponse.t) :
  nth_error (workers req) j = Some w ->
  Plan chk self req ctx = Py.Ok resp ->
  Batch.assigned_count resp w
  = Batch.share_size (List.length (tasks req)) (List.length (workers req)) j.
Proof.
  intros Hj H. apply Plan_Ok_iff in H. destruct H as [l [Hl ->]].
  unfold Batch.assigned_count. cbn [assignments].
  rewrite (Plan_entries_named j w (tasks req) Hj 0 l Hl).
  apply share_positions. apply nth_error_Some. rewrite Hj. discriminate.
Qed.

(** X4. On a request whose worker ids are distinct, the worker at position
    [j] of [n] workers is named by exactly [(T + n - 1 - j) / n] of the
    assignments, [T] being the number of tasks: one for each input position
    [i < T] with [i mod n = j]. *)
Theorem Plan_share_size (j : nat) (w : Worker.t) (resp : PlanResponse.t) :
  nth_error (workers req) j = Some w ->
  Plan chk self req ctx = Py.Ok resp ->
  Batch.assigned_count resp w
  = (List.length (tasks req) + List.length (workers req) - 1 - j)
    / List.length (workers req).
Proof.
  intros Hj H. rewrite (Plan_assigned_count j w resp Hj H). reflexivity.
Qed.

(** X5. On a request whose worker ids are distinct the plan is balanced: a
    worker listed earlier gets as many tasks as one listed later, or one
    more; no worker gets more than the [T / n] rounded up, and none gets
    less than [T / n] rounded down. *)
Theorem Plan_balanced (j1 j2 : nat) (w1 w2 : Worker.t)
    (resp : PlanResponse.t) :
  nth_error (workers req) j1 = Some w1 ->
  nth_error (workers req) j2 = Some w2 ->
  j1 <= j2 ->
  Plan chk self req ctx = Py.Ok resp ->
  Batch.assigned_count resp w2 <= Batch.assigned_count resp w1
                               <= Batch.assigned_count resp w2 + 1
  /\ List.length (tasks req) / List.length (workers req)
     <= Batch.assigned_count resp w2
  /\ Batch.assigned_count resp w1
     <= (List.length (tasks req) + List.length (workers req) - 1)
        / List.length (workers req).
Proof.
  intros H1 H2 Hle H.
  rewrite (Plan_assigned_count j1 w1 resp H1 H).
  rewrite (Plan_assigned_count j2 w2 resp H2 H).
  assert (Hj2 : j2 < List.length (workers req))
    by (apply nth_error_Some; rewrite H2; discriminate).
  unfold Batch.share_size.
  set (n := List.length (workers req)) in *.
  set (T := List.length (tasks req)).
  assert (Hn : n <> 0) by lia.
  repeat split.
  - apply Nat.Div0.div_le_mono. lia.
  - rewrite <- (Nat.div_add (T + n - 1 - j2) 1 n Hn).
    apply Nat.Div0.div_le_mono. lia.
  - apply Nat.Div0.div_le_mono. lia.
  - apply Nat.Div0.div_le_mono. lia.
Qed.

End Balance.

(** ** The durations a response stores *)

(** X6. With at least one worker, the [est_duration_sec] of the [i]-th
    assignment of a response lies in the range of its field and is the
    [estimated_sec] of the [i]-th task rounded toward zero: the estimate is
    finite, the stored duration has its sign, is not larger in magnitude and
    is less than one second off. *)
Theorem Plan_duration_stored (ServicerContext : Type)
    (chk : Py.IntValueChecker) (self : PlannerServicer)
    (ctx : ServicerContext) (req : PlanRequest.t) (resp : PlanResponse.t)
    (i : nat) (t : Task.t) (a : Assignment.t) :
  PlanRequest.workers req <> [] ->
  Plan chk self req ctx = Py.Ok resp ->
  nth_error (PlanRequest.tasks req) i = Some t ->
  nth_error (PlanResponse.assignments resp) i = Some a ->
  (Py._MIN chk <= Assignment.est_duration_sec a <= Py._MAX chk)%Z
  /\ Batch.truncation_of (Task.estimated_sec t)
       (Assignment.est_duration_sec a).
Proof.
  intros Hw H Ht Ha. apply Plan_Ok_iff in H. destruct H as [l [Hl ->]].
  cbn [PlanResponse.assignments] in Ha.
  destruct (Plan_entries_nth _ _ _ _ _ Hl) as [_ Hnth].
  destruct (Hnth _ _ Ht) as [a' [Ha' He]]. rewrite Ha in Ha'.
  injection Ha' as <-.
  destruct (Plan_entry_Ok_inv _ _ _ _ _ Hw He) as [w [d [_ [Hd [Hr ->]]]]].
  cbn [Assignment.est_duration_sec]. split; [exact Hr |].
  unfold Batch.truncation_of.
  destruct (Task.estimated_sec t) as [s | s | | s m e];
    try discriminate Hd.
  - injection Hd as <-. reflexivity.
  - apply (int_truncates s m e d Hd).
Qed.

(** *** The extra properties on the samples *)

(** [Plan_raises_at_first_failure] on a batch whose second task has a NaN
    duration. *)
Lemma Plan_raises_at_first_failure_witness :
  PlanRequest.workers Batch.second_unknown <> []
  /\ forallb (storable Py.Int64ValueChecker) [Samples.small] = true
  /\ Batch.duration_error Py.Int64ValueChecker Samples.unknown
     = Some Py.ValueError
  /\ Samples.Plan64 Batch.second_unknown = Py.Raise Py.ValueError.
Proof.
  assert (Hw : PlanRequest.workers Batch.second_unknown <> [])
    by discriminate.
  split; [exact Hw |]. split; [reflexivity |]. split; [reflexivity |].
  exact (Plan_raises_at_first_failure Py.Int64ValueChecker
           PlannerServicer_new tt Batch.second_unknown
           [Samples.small] [Samples.large] Samples.unknown Py.ValueError
           Hw eq_refl eq_refl eq_refl).
Defined.

(** [Plan_prefix_stable] on the first two of three tasks. *)
Lemma Plan_prefix_stable_witness :
  Samples.Plan64
    (Batch.with_tasks Samples.three_on_two
       ([Samples.small; Samples.large] ++ [Samples.medium])%list)
  = Py.Ok Samples.three_on_two_plan
  /\ Samples.Plan64
       (Batch.with_tasks Samples.three_on_two [Samples.small; Samples.large])
     = Py.Ok (Samples.plan [Assignment.mk "small" "w1" 0 2;
                            Assignment.mk "large" "w2" 0 30]).
Proof.
  split; [reflexivity |].
  exact (Plan_prefix_stable Py.Int64ValueChecker PlannerServicer_new tt
           Samples.three_on_two [Samples.small; Samples.large]
           [Samples.medium] Samples.three_on_two_plan eq_refl).
Defined.

(** [Plan_batches_compose] on two tasks, as many as the workers, followed by
    a third. *)
Lemma Plan_batches_compose_witness :
  List.length [Samples.small; Samples.large]
  = 1 * List.length (PlanRequest.workers Samples.three_on_two)
  /\ Samples.Plan64
       (Batch.with_tasks Samples.three_on_two
          ([Samples.small; Samples.large] ++ [Samples.medium])%list)
     = (r1 <- Samples.Plan64
                (Batch.with_tasks Samples.three_on_two
                   [Samples.small; Samples.large]);;
        r2 <- Samples.Plan64
                (Batch.with_tasks Samples.three_on_two [Samples.medium]);;
        Py.Ok (PlanResponse.mk "plan-stub-1" "stub plan"
                 (PlanResponse.assignments r1
                  ++ PlanResponse.assignments r2)%list [])).
Proof.
  split; [reflexivity |].
  exact (Plan_batches_compose Py.Int64ValueChecker PlannerServicer_new tt
           Samples.three_on_two [Samples.small; Samples.large]
           [Samples.medium] 1 eq_refl).
Defined.

(** [Plan_share_size] for the first of two workers on three tasks. *)
Lemma Plan_share_size_witness :
  NoDup (map Worker.id (PlanRequest.workers Samples.three_on_two))
  /\ nth_error (PlanRequest.workers Samples.three_on_two) 0
     = Some Samples.roomy
  /\ Samples.Plan64 Samples.three_on_two = Py.Ok Samples.three_on_two_plan
  /\ Batch.assigned_count Samples.three_on_two_plan Samples.roomy = 2.
Proof.
  assert (Hw : NoDup (map Worker.id
                        (PlanRequest.workers Samples.three_on_two))).
  { repeat constructor; simpl; intuition discriminate. }
  split; [exact Hw |]. split; [reflexivity |]. split; [reflexivity |].
  exact (Plan_share_size Py.Int64ValueChecker PlannerServicer_new tt
           Samples.three_on_two Hw 0 Samples.roomy Samples.three_on_two_plan
           eq_refl eq_refl).
Defined.

(** [Plan_balanced] for the two workers on three tasks. *)
Lemma Plan_balanced_witness :
  NoDup (map Worker.id (PlanRequest.workers Samples.three_on_two))
  /\ Samples.Plan64 Samples.three_on_two = Py.Ok Samples.three_on_two_plan
  /\ (Batch.assigned_count Samples.three_on_two_plan Samples.tight
      <= Batch.assigned_count Samples.three_on_two_plan Samples.roomy
      <= Batch.assigned_count Samples.three_on_two_plan Samples.tight + 1
      /\ 3 / 2 <= Batch.assigned_count Samples.three_on_two_plan Samples.tight
      /\ Batch.assigned_count Samples.three_on_two_plan Samples.roomy
         <= (3 + 2 - 1) / 2).
Proof.
  assert (Hw : NoDup (map Worker.id
                        (PlanRequest.workers Samples.three_on_two))).
  { repeat constructor; simpl; intuition discriminate. }
  split; [exact Hw |]. split; [reflexivity |].
  exact (Plan_balanced Py.Int64ValueChecker PlannerServicer_new tt
           Samples.three_on_two Hw 0 1 Samples.roomy Samples.tight
           Samples.three_on_two_plan eq_refl eq_refl (Nat.le_0_l 1) eq_refl).
Defined.

(** [Plan_duration_stored] for the third of three tasks, 7.75 seconds. *)
Lemma Plan_duration_stored_witness :
  PlanRequest.workers Samples.three_on_two <> []
  /\ Samples.Plan64 Samples.three_on_two = Py.Ok Samples.three_on_two_plan
  /\ (Py._MIN Py.Int64ValueChecker <= 7 <= Py._MAX Py.Int64ValueChecker)%Z
  /\ Batch.truncation_of Samples.sec_7_75 7.
Proof.
  assert (Hw : PlanRequest.workers Samples.three_on_two <> [])
    by discriminate.
  split; [exact Hw |]. split; [reflexivity |].
  exact (Plan_duration_stored unit Py.Int64ValueChecker PlannerServicer_new
           tt Samples.three_on_two Samples.three_on_two_plan 2 Samples.medium
           (Assignment.mk "medium" "w1" 0 7) Hw eq_refl eq_refl eq_refl).
Defined.

(** ** serve: when the server is stopped and when the function returns *)

Lemma wait_while_sleeps_return (n : nat) :
  Serve.wait (Serve.returns n)
  = (repeat (Serve.time_sleep 3600) (S n), Serve.Pending).
Proof.
  induction n as [| n IH]; simpl; [reflexivity |].
  unfold Serve.returns in IH. rewrite IH. reflexivity.
Qed.

Lemma wait_interrupted (n : nat) (rest : list Serve.outcome) :
  Serve.wait (Serve.returns n ++ Some Serve.KeyboardInterrupt :: rest)%list
  = (repeat (Serve.time_sleep 3600) (S n)
       ++ fst (Serve.then_ (Serve.server_stop 0) Serve.return_ rest),
     snd (Serve.then_ (Serve.server_stop 0) Serve.return_ rest))%list.
Proof.
  induction n as [| n IH]; simpl.
  - destruct (Serve.then_ (Serve.server_stop 0) Serve.return_ rest).
    reflexivity.
  - unfold Serve.returns in IH. rewrite IH. reflexivity.
Qed.

(** A stop in a run of the loop is a stop with grace 0 after an interrupted
    sleep. *)
Lemma wait_stop_inv (g : Z) (env : list Serve.outcome) :
  In (Serve.server_stop g) (fst (Serve.wait env)) ->
  g = 0%Z
  /\ exists n rest,
       env = (Serve.returns n ++ Some Serve.KeyboardInterrupt :: rest)%list.
Proof.
  induction env as [| o env IH]; simpl.
  - intros [H | []]. discriminate H.
  - destruct o as [[|] |].
    + intro H. split.
      * destruct env as [| [e |] env']; simpl in H.
        -- destruct H as [H | [H | []]]; [discriminate H |].
           injection H as <-. reflexivity.
        -- destruct H as [H | [H | []]]; [discriminate H |].
           injection H as <-. reflexivity.
        -- destruct H as [H | [H | []]]; [discriminate H |].
           injection H as <-. reflexivity.
      * exists 0, env. reflexivity.
    + intros [H | []]. discriminate H.
    + destruct (Serve.wait env) as [tr st] eqn:E. simpl in *.
      intros [H | H]; [discriminate H |].
      destruct (IH H) as [Hg [n [rest ->]]].
      split; [exact Hg |]. exists (S n), rest. reflexivity.
Qed.

Lemma wait_Returned_inv (env : list Serve.outcome) (tr : list Serve.call) :
  Serve.wait env = (tr, Serve.Returned) ->
  exists n rest,
    env = (Serve.returns n ++ Some Serve.KeyboardInterrupt :: None :: rest)%list
    /\ tr = (repeat (Serve.time_sleep 3600) (S n) ++ [Serve.server_stop 0])%list.
Proof.
  revert tr. induction env as [| o env IH]; intros tr H; simpl in H.
  - discriminate H.
  - destruct o as [[|] |].
    + destruct env as [| [e |] env']; simpl in H; try discriminate H.
      injection H as <-. exists 0, env'. split; reflexivity.
    + discriminate H.
    + destruct (Serve.wait env) as [tr' st] eqn:E.
      injection H as <- ->.
      destruct (IH tr' eq_refl) as [n [rest [-> ->]]].
      exists (S n), rest. split; reflexivity.
Qed.

(** A call that is not a stop passes the question on to what follows. *)
Lemma then_stop_inv (c : Serve.call) (rest : list Serve.outcome -> Serve.run)
    (env : list Serve.outcome) (g : Z) :
  c <> Serve.server_stop g ->
  In (Serve.server_stop g) (fst (Serve.then_ c rest env)) ->
  exists env', env = None :: env'
               /\ In (Serve.server_stop g) (fst (rest env')).
Proof.
  intros Hc H. destruct env as [| [e |] env']; simpl in H.
  - destruct H as [H | []]. contradiction.
  - destruct H as [H | []]. contradiction.
  - destruct (rest env') as [tr st] eqn:E. simpl in H.
    destruct H as [H | H]; [contradiction |].
    exists env'. rewrite E. split; [reflexivity | exact H].
Qed.

Lemma then_Returned_inv (c : Serve.call)
    (rest : list Serve.outcome -> Serve.run) (env : list Serve.outcome)
    (tr : list Serve.call) :
  Serve.then_ c rest env = (tr, Serve.Returned) ->
  exists env' tr', env = None :: env'
                   /\ rest env' = (tr', Serve.Returned)
                   /\ tr = c :: tr'.
Proof.
  intro H. destruct env as [| [e |] env']; simpl in H; try discriminate H.
  destruct (rest env') as [tr' st] eqn:E. injection H as <- ->.
  exists env', tr'. split; [reflexivity |]. split; [exact E | reflexivity].
Qed.

(** X7. While every call returns, [serve] does not: after the six calls
    that set the server up (executor with 8 threads, server, servicer,
    registration, port [::]:50051, start) it is in its [n+1]-st sleep of 3600
    seconds once [n] sleeps have returned, for every [n]. *)
Theorem serve_keeps_waiting (n : nat) :
  Serve.serve (Serve.returns (6 + n))
  = ((Serve.setup ++ repeat (Serve.time_sleep 3600) (S n))%list,
     Serve.Pending).
Proof.
  unfold Serve.serve, Serve.returns. cbn [Nat.add repeat Serve.then_].
  fold (Serve.returns n). rewrite wait_while_sleeps_return. reflexivity.
Qed.

(** X8. [serve] stops the server in one case only, and then with grace 0:
    the six calls of the setup returned and, after any number of sleeps that
    returned, a sleep was interrupted by KeyboardInterrupt. An exception
    during the setup, or another exception in a sleep, leaves the server
    unstopped. *)
Theorem serve_stops_on_interrupt (env : list Serve.outcome) (g : Z) :
  In (Serve.server_stop g) (fst (Serve.serve env))
  <-> g = 0%Z
      /\ exists n rest,
           env = (Serve.returns (6 + n)
                  ++ Some Serve.KeyboardInterrupt :: rest)%list.
Proof.
  split.
  - unfold Serve.serve. intro H.
    do 6 (apply then_stop_inv in H; [| discriminate];
          destruct H as [? [-> H]]).
    destruct (wait_stop_inv g _ H) as [Hg [n [rest ->]]].
    split; [exact Hg |]. exists n, rest. reflexivity.
  - intros [-> [n [rest ->]]].
    unfold Serve.serve, Serve.returns. cbn [Nat.add repeat app Serve.then_].
    fold (Serve.returns n). rewrite wait_interrupted.
    cbn [fst]. do 6 right. apply in_or_app. right.
    destruct rest as [| [e |] rest]; simpl; left; reflexivity.
Qed.

(** X9. [serve] returns in one case only: the setup returned, a sleep was
    interrupted by KeyboardInterrupt and the stop of the server returned.
    Its calls are then the setup, the sleeps and, last, the stop with
    grace 0. *)
Theorem serve_returns_after_stop (env : list Serve.outcome)
    (tr : list Serve.call) :
  Serve.serve env = (tr, Serve.Returned)
  <-> exists n rest,
        env = (Serve.returns (6 + n)
               ++ Some Serve.KeyboardInterrupt :: None :: rest)%list
        /\ tr = (Serve.setup ++ repeat (Serve.time_sleep 3600) (S n)
                 ++ [Serve.server_stop 0])%list.
Proof.
  split.
  - unfold Serve.serve. intro H.
    do 6 (apply then_Returned_inv in H;
          destruct H as [? [? [-> [H ->]]]]).
    destruct (wait_Returned_inv _ _ H) as [n [rest [-> ->]]].
    exists n, rest. split; reflexivity.
  - intros [n [rest [-> ->]]].
    unfold Serve.serve, Serve.returns. cbn [Nat.add repeat app Serve.then_].
    fold (Serve.returns n). rewrite wait_interrupted. reflexivity.
Qed.

(** ** The sort benchmark: merge *)

Section Merge.

Import Workload SortBenchmark.

Lemma getitem_nth (l : list Z) (i : nat) :
  i < List.length l -> getitem l i = Value (nth i l 0%Z).
Proof.
  intro H. unfold getitem.
  rewrite (nth_error_nth' l 0%Z H). reflexivity.
Qed.

Lemma skipn_nth (l : list Z) :
  forall i, i < List.length l ->
            skipn i l = nth i l 0%Z :: skipn (S i) l.
Proof.
  induction l as [| x l IH]; intros i H; simpl in H; [lia |].
  destruct i as [| i]; [reflexivity |].
  simpl. apply IH. lia.
Qed.

Lemma merge_heads_nil_l (l : list Z) : merge_heads [] l = l.
Proof. destruct l; reflexivity. Qed.

Lemma merge_heads_nil_r (l : list Z) : merge_heads l [] = l.
Proof. destruct l; reflexivity. Qed.

Lemma merge_heads_cons (x y : Z) (l1 l2 : list Z) :
  merge_heads (x :: l1) (y :: l2)
  = if (x <=? y)%Z then x :: merge_heads l1 (y :: l2)
    else y :: merge_heads (x :: l1) l2.
Proof. reflexivity. Qed.

(** The loop leaves by its test, not by its fuel, and what it has appended
    and what is left of the two lists make up the merge by the heads. *)
Lemma merge_loop_spec (left right : list Z) (fuel : nat) :
  forall (i j : nat) (result : list Z),
    (List.length left - i) + (List.length right - j) <= fuel ->
    exists i' j' result',
      merge_loop fuel left right i j result = Value (i', j', result')
      /\ ((result' ++ skipn i' left) ++ skipn j' right)%list
         = (result ++ merge_heads (skipn i left) (skipn j right))%list.
Proof.
  induction fuel as [| fuel IH]; intros i j result Hfuel;
    cbn [merge_loop].
  - exists i, j, result. split; [reflexivity |].
    rewrite (skipn_all2 left), (skipn_all2 right) by lia.
    rewrite !app_nil_r. reflexivity.
  - destruct (i <? List.length left) eqn:Hi;
      destruct (j <? List.length right) eqn:Hj; cbn [andb].
    + apply Nat.ltb_lt in Hi, Hj.
      rewrite (getitem_nth left i Hi), (getitem_nth right j Hj).
      cbn [bind].
      rewrite (skipn_nth left i Hi), (skipn_nth right j Hj).
      rewrite merge_heads_cons.
      destruct (nth i left 0 <=? nth j right 0)%Z.
      * destruct (IH (i + 1) j (result ++ [nth i left 0%Z])%list)
          as [i' [j' [r' [-> Heq]]]]; [lia |].
        exists i', j', r'. split; [reflexivity |].
        rewrite Heq, Nat.add_1_r, <- app_assoc.
        rewrite (skipn_nth right j Hj). reflexivity.
      * destruct (IH i (j + 1) (result ++ [nth j right 0%Z])%list)
          as [i' [j' [r' [-> Heq]]]]; [lia |].
        exists i', j', r'. split; [reflexivity |].
        rewrite Heq, Nat.add_1_r, <- app_assoc.
        rewrite (skipn_nth left i Hi). reflexivity.
    + apply Nat.ltb_ge in Hj. exists i, j, result. split; [reflexivity |].
      rewrite (skipn_all2 right) by lia.
      rewrite merge_heads_nil_r, app_nil_r. reflexivity.
    + apply Nat.ltb_ge in Hi. exists i, j, result. split; [reflexivity |].
      rewrite (skipn_all2 left) by lia.
      rewrite merge_heads_nil_l, app_nil_r. reflexivity.
    + apply Nat.ltb_ge in Hi. exists i, j, result. split; [reflexivity |].
      rewrite (skipn_all2 left) by lia.
      rewrite merge_heads_nil_l, app_nil_r. reflexivity.
Qed.

Lemma merge_eq (left right : list Z) :
  merge left right = Value (merge_heads left right).
Proof.
  unfold merge.
  destruct (merge_loop_spec left right
              (List.length left + List.length right) 0 0 [])
    as [i [j [r [-> Heq]]]]; [lia |].
  simpl. rewrite Heq. reflexivity.
Qed.

Lemma merge_heads_perm (l1 : list Z) :
  forall l2, Permutation (merge_heads l1 l2) (l1 ++ l2).
Proof.
  induction l1 as [| x l1 IH1]; intro l2.
  - destruct l2; apply Permutation_refl.
  - induction l2 as [| y l2 IH2].
    + rewrite merge_heads_nil_r, app_nil_r. apply Permutation_refl.
    + rewrite merge_heads_cons. destruct (x <=? y)%Z.
      * simpl. apply perm_skip. apply IH1.
      * apply Permutation_trans with (y :: (x :: l1) ++ l2)%list.
        -- apply perm_skip. exact IH2.
        -- apply Permutation_middle.
Qed.

Lemma merge_heads_HdRel (a : Z) (l1 : list Z) :
  forall l2, HdRel Z.le a l1 -> HdRel Z.le a l2 ->
             HdRel Z.le a (merge_heads l1 l2).
Proof.
  destruct l1 as [| x l1]; intros l2 H1 H2.
  - destruct l2; exact H2.
  - destruct l2 as [| y l2]; [exact H1 |].
    rewrite merge_heads_cons. destruct (x <=? y)%Z; constructor.
    + inversion H1; assumption.
    + inversion H2; assumption.
Qed.

Lemma merge_heads_sorted (l1 : list Z) :
  forall l2, Sorted Z.le l1 -> Sorted Z.le l2 ->
             Sorted Z.le (merge_heads l1 l2).
Proof.
  induction l1 as [| x l1 IH1]; intros l2 H1 H2.
  - destruct l2; exact H2.
  - induction l2 as [| y l2 IH2]; [exact H1 |].
    rewrite merge_heads_cons. destruct (x <=? y)%Z eqn:E.
    + apply Z.leb_le in E. inversion H1; subst. constructor.
      * apply IH1; assumption.
      * apply merge_heads_HdRel; [assumption | constructor; exact E].
    + apply Z.leb_gt in E. inversion H2; subst. constructor.
      * apply IH2; assumption.
      * apply merge_heads_HdRel; [constructor; lia | assumption].
Qed.

End Merge.

(** X10. [merge] never raises: on any two lists it returns a permutation
    of the two together, and when both are sorted the result is sorted. *)
Theorem merge_merges (left right : list Z) :
  exists result,
    SortBenchmark.merge left right = Workload.Value result
    /\ Permutation result (left ++ right)
    /\ (Sorted Z.le left -> Sorted Z.le right -> Sorted Z.le result).
Proof.
  exists (SortBenchmark.merge_heads left right).
  split; [apply merge_eq |]. split.
  - apply merge_heads_perm.
  - apply merge_heads_sorted.
Qed.

(** ** The sort benchmark: merge sort and quick sort *)

Section Sorts.

Import Workload SortBenchmark.

Lemma bind_Value_inv (A B : Type) (c : outcome A) (k : A -> outcome B)
    (b : B) :
  bind c k = Value b -> exists a, c = Value a /\ k a = Value b.
Proof.
  destruct c as [a | e]; simpl; intro H; [eauto | discriminate H].
Qed.

Lemma merge_sort_sound (depth : nat) :
  forall arr r, merge_sort depth arr = Value r ->
                Sorted Z.le r /\ Permutation r arr.
Proof.
  induction depth as [| depth IH]; intros arr r H; simpl in H;
    [discriminate H |].
  destruct (List.length arr <=? 1) eqn:Hlen.
  - injection H as <-. split; [| apply Permutation_refl].
    apply Nat.leb_le in Hlen.
    destruct arr as [| x [| y arr]]; simpl in Hlen;
      [constructor | repeat constructor | lia].
  - apply bind_Value_inv in H. destruct H as [left [Hl H]].
    apply bind_Value_inv in H. destruct H as [right [Hr H]].
    rewrite merge_eq in H. injection H as <-.
    destruct (IH _ _ Hl) as [Sl Pl]. destruct (IH _ _ Hr) as [Sr Pr].
    split; [apply merge_heads_sorted; assumption |].
    apply Permutation_trans with (left ++ right)%list;
      [apply merge_heads_perm |].
    apply Permutation_trans
      with (firstn (List.length arr / 2) arr
            ++ skipn (List.length arr / 2) arr)%list.
    + apply Permutation_app; assumption.
    + rewrite firstn_skipn. apply Permutation_refl.
Qed.

Lemma merge_sort_S (depth : nat) (arr : list Z) :
  merge_sort (S depth) arr
  = if List.length arr <=? 1 then Value arr
    else
      left <~ merge_sort depth (firstn (List.length arr / 2) arr);;
      right <~ merge_sort depth (skipn (List.length arr / 2) arr);;
      merge left right.
Proof. reflexivity. Qed.

Lemma quick_sort_S (depth : nat) (arr : list Z) :
  quick_sort (S depth) arr
  = if List.length arr <=? 1 then Value arr
    else
      pivot <~ getitem arr (List.length arr / 2);;
      l <~ quick_sort depth (filter (fun x => (x <? pivot)%Z) arr);;
      r <~ quick_sort depth (filter (fun x => (x >? pivot)%Z) arr);;
      Value ((l ++ filter (fun x => (x =? pivot)%Z) arr) ++ r)%list.
Proof. reflexivity. Qed.

Lemma merge_sort_returns (d : nat) :
  forall arr, List.length arr <= 2 ^ d ->
              exists r, merge_sort (S d) arr = Value r.
Proof.
  induction d as [| d IH]; intros arr Hlen.
  - simpl in Hlen. simpl.
    assert (E : (List.length arr <=? 1) = true) by (apply Nat.leb_le; lia).
    rewrite E. eauto.
  - rewrite merge_sort_S.
    destruct (List.length arr <=? 1) eqn:E; [eauto |].
    apply Nat.leb_gt in E.
    pose proof (Nat.div_mod_eq (List.length arr) 2) as Hdm.
    pose proof (Nat.mod_upper_bound (List.length arr) 2 ltac:(lia)) as Hm.
    rewrite Nat.pow_succ_r' in Hlen.
    destruct (IH (firstn (List.length arr / 2) arr)) as [left ->].
    { rewrite length_firstn. lia. }
    destruct (IH (skipn (List.length arr / 2) arr)) as [right ->].
    { rewrite length_skipn. lia. }
    cbn [bind]. rewrite merge_eq. eauto.
Qed.

Lemma partition_perm (pivot : Z) (arr : list Z) :
  Permutation
    ((filter (fun x => (x <? pivot)%Z) arr
      ++ filter (fun x => (x =? pivot)%Z) arr)
     ++ filter (fun x => (x >? pivot)%Z) arr)
    arr.
Proof.
  induction arr as [| x arr IH]; [apply Permutation_refl |].
  cbn [filter].
  destruct (Z.compare_spec x pivot) as [Heq | Hlt | Hgt].
  - assert (E1 : (x <? pivot)%Z = false) by (apply Z.ltb_ge; lia).
    assert (E2 : (x =? pivot)%Z = true) by (apply Z.eqb_eq; lia).
    assert (E3 : (x >? pivot)%Z = false) by (rewrite Z.gtb_ltb; apply Z.ltb_ge; lia).
    rewrite E1, E2, E3. rewrite <- app_assoc. cbn [app].
    apply Permutation_sym, Permutation_cons_app. rewrite app_assoc.
    apply Permutation_sym. exact IH.
  - assert (E1 : (x <? pivot)%Z = true) by (apply Z.ltb_lt; lia).
    assert (E2 : (x =? pivot)%Z = false) by (apply Z.eqb_neq; lia).
    assert (E3 : (x >? pivot)%Z = false) by (rewrite Z.gtb_ltb; apply Z.ltb_ge; lia).
    rewrite E1, E2, E3. cbn [app]. apply perm_skip. exact IH.
  - assert (E1 : (x <? pivot)%Z = false) by (apply Z.ltb_ge; lia).
    assert (E2 : (x =? pivot)%Z = false) by (apply Z.eqb_neq; lia).
    assert (E3 : (x >? pivot)%Z = true) by (rewrite Z.gtb_ltb; apply Z.ltb_lt; lia).
    rewrite E1, E2, E3.
    apply Permutation_sym, Permutation_cons_app, Permutation_sym. exact IH.
Qed.

Lemma sorted_app (l1 l2 : list Z) :
  Sorted Z.le l1 -> Sorted Z.le l2 ->
  (forall x y, In x l1 -> In y l2 -> (x <= y)%Z) ->
  Sorted Z.le (l1 ++ l2).
Proof.
  induction l1 as [| a l1 IH]; intros H1 H2 Hle; [exact H2 |].
  inversion H1 as [| a' l' Hs Hh]; subst. simpl. constructor.
  - apply IH; [exact Hs | exact H2 |].
    intros x y Hx Hy. apply Hle; [right; exact Hx | exact Hy].
  - destruct l1 as [| b l1]; simpl.
    + destruct l2 as [| c l2]; constructor.
      apply Hle; left; reflexivity.
    + constructor. inversion Hh; assumption.
Qed.

Lemma sorted_constant (pivot : Z) (arr : list Z) :
  Sorted Z.le (filter (fun x => (x =? pivot)%Z) arr).
Proof.
  induction arr as [| x arr IH]; [constructor |].
  cbn [filter]. destruct (x =? pivot)%Z eqn:E; [| exact IH].
  apply Z.eqb_eq in E. subst x. constructor; [exact IH |].
  destruct (filter (fun x => (x =? pivot)%Z) arr) as [| y l] eqn:F;
    constructor.
  assert (Hy : In y (filter (fun x => (x =? pivot)%Z) arr))
    by (rewrite F; left; reflexivity).
  apply filter_In in Hy. destruct Hy as [_ Hy]. apply Z.eqb_eq in Hy. lia.
Qed.

Lemma quick_sort_sound (depth : nat) :
  forall arr r, quick_sort depth arr = Value r ->
                Sorted Z.le r /\ Permutation r arr.
Proof.
  induction depth as [| depth IH]; intros arr r H; simpl in H;
    [discriminate H |].
  destruct (List.length arr <=? 1) eqn:Hlen.
  - injection H as <-. split; [| apply Permutation_refl].
    apply Nat.leb_le in Hlen.
    destruct arr as [| x [| y arr]]; simpl in Hlen;
      [constructor | repeat constructor | lia].
  - apply bind_Value_inv in H. destruct H as [pivot [_ H]].
    apply bind_Value_inv in H. destruct H as [l [Hl H]].
    apply bind_Value_inv in H. destruct H as [r' [Hr H]].
    injection H as <-.
    destruct (IH _ _ Hl) as [Sl Pl]. destruct (IH _ _ Hr) as [Sr Pr].
    split.
    + apply sorted_app; [apply sorted_app | exact Sr |].
      * exact Sl.
      * apply sorted_constant.
      * intros x y Hx Hy.
        apply (Permutation_in _ Pl), filter_In in Hx.
        apply filter_In in Hy.
        destruct Hx as [_ Hx]. destruct Hy as [_ Hy].
        apply Z.ltb_lt in Hx. apply Z.eqb_eq in Hy. lia.
      * intros x y Hx Hy.
        apply (Permutation_in _ Pr), filter_In in Hy.
        destruct Hy as [_ Hy]. rewrite Z.gtb_ltb in Hy. apply Z.ltb_lt in Hy.
        apply in_app_or in Hx. destruct Hx as [Hx | Hx].
        -- apply (Permutation_in _ Pl), filter_In in Hx.
           destruct Hx as [_ Hx]. apply Z.ltb_lt in Hx. lia.
        -- apply filter_In in Hx. destruct Hx as [_ Hx].
           apply Z.eqb_eq in Hx. lia.
    + apply Permutation_trans with (2 := partition_perm pivot arr).
      apply Permutation_app; [apply Permutation_app |];
        [exact Pl | apply Permutation_refl | exact Pr].
Qed.

(** The pivot is an element, so each side is shorter than the list. *)
Lemma partition_shorter (arr : list Z) (pivot : Z) :
  In pivot arr ->
  List.length (filter (fun x => (x <? pivot)%Z) arr) < List.length arr
  /\ List.length (filter (fun x => (x >? pivot)%Z) arr) < List.length arr.
Proof.
  intro Hin.
  pose proof (Permutation_length (partition_perm pivot arr)) as Hlen.
  rewrite !length_app in Hlen.
  assert (Hm : 0 < List.length (filter (fun x => (x =? pivot)%Z) arr)).
  { assert (H : In pivot (filter (fun x => (x =? pivot)%Z) arr))
      by (apply filter_In; split; [exact Hin | apply Z.eqb_refl]).
    destruct (filter (fun x => (x =? pivot)%Z) arr); [destruct H |].
    simpl. lia. }
  lia.
Qed.

Lemma quick_sort_returns (depth : nat) :
  forall arr, List.length arr < depth ->
              exists r, quick_sort depth arr = Value r.
Proof.
  induction depth as [| depth IH]; intros arr Hlen; [lia |].
  rewrite quick_sort_S.
  destruct (List.length arr <=? 1) eqn:E; [eauto |].
  apply Nat.leb_gt in E.
  assert (Hmid : List.length arr / 2 < List.length arr)
    by (apply Nat.div_lt; lia).
  rewrite (getitem_nth arr _ Hmid). cbn [bind].
  set (pivot := nth (List.length arr / 2) arr 0%Z).
  destruct (partition_shorter arr pivot (nth_In arr 0%Z Hmid)) as [Hl Hr].
  destruct (IH (filter (fun x => (x <? pivot)%Z) arr)) as [l ->]; [lia |].
  destruct (IH (filter (fun x => (x >? pivot)%Z) arr)) as [r ->]; [lia |].
  cbn [bind]. eauto.
Qed.

Lemma bind_Error_inv (A B : Type) (c : outcome A) (k : A -> outcome B)
    (e : error) :
  bind c k = Error e ->
  c = Error e \/ exists a, c = Value a /\ k a = Error e.
Proof.
  destruct c as [a | e']; simpl; intro H; [right; eauto | left].
  injection H as <-. reflexivity.
Qed.

(** No index is out of range: the sorts fail by depth only. *)
Lemma merge_sort_error (depth : nat) :
  forall arr e, merge_sort depth arr = Error e -> e = RecursionError.
Proof.
  induction depth as [| depth IH]; intros arr e H.
  - injection H as <-. reflexivity.
  - rewrite merge_sort_S in H.
    destruct (List.length arr <=? 1); [discriminate H |].
    apply bind_Error_inv in H. destruct H as [H | [left [_ H]]];
      [exact (IH _ _ H) |].
    apply bind_Error_inv in H. destruct H as [H | [right [_ H]]];
      [exact (IH _ _ H) |].
    rewrite merge_eq in H. discriminate H.
Qed.

Lemma quick_sort_error (depth : nat) :
  forall arr e, quick_sort depth arr = Error e -> e = RecursionError.
Proof.
  induction depth as [| depth IH]; intros arr e H.
  - injection H as <-. reflexivity.
  - rewrite quick_sort_S in H.
    destruct (List.length arr <=? 1) eqn:E; [discriminate H |].
    apply Nat.leb_gt in E.
    rewrite (getitem_nth arr (List.length arr / 2)) in H
      by (apply Nat.div_lt; lia).
    cbn [bind] in H.
    apply bind_Error_inv in H. destruct H as [H | [l [_ H]]];
      [exact (IH _ _ H) |].
    apply bind_Error_inv in H. destruct H as [H | [r [_ H]]];
      [exact (IH _ _ H) | discriminate H].
Qed.

End Sorts.

(** X11. [merge_sort] sorts: whatever the recursion depth left, a list it
    returns is sorted and a permutation of its argument; it returns
    whenever the depth left exceeds the base-2 logarithm of the length, that
    is with [d + 1] nested calls left on a list of at most [2^d] elements;
    and it raises nothing but RecursionError. *)
Theorem merge_sort_sorts (d : nat) (arr : list Z) :
  (forall depth r,
     SortBenchmark.merge_sort depth arr = Workload.Value r ->
     Sorted Z.le r /\ Permutation r arr)
  /\ (List.length arr <= 2 ^ d ->
      exists r, SortBenchmark.merge_sort (S d) arr = Workload.Value r)
  /\ (forall depth e,
        SortBenchmark.merge_sort depth arr = Workload.Error e ->
        e = Workload.RecursionError).
Proof.
  split; [| split].
  - intros depth r. apply merge_sort_sound.
  - apply merge_sort_returns.
  - intros depth e. apply merge_sort_error.
Qed.

(** X12. [quick_sort] sorts: whatever the recursion depth left, a list it
    returns is sorted and a permutation of its argument; it returns
    whenever more nested calls are left than the list has elements; and it
    raises nothing but RecursionError, the pivot's index being in range. *)
Theorem quick_sort_sorts (depth : nat) (arr : list Z) :
  (forall r,
     SortBenchmark.quick_sort depth arr = Workload.Value r ->
     Sorted Z.le r /\ Permutation r arr)
  /\ (List.length arr < depth ->
      exists r, SortBenchmark.quick_sort depth arr = Workload.Value r)
  /\ (forall e,
        SortBenchmark.quick_sort depth arr = Workload.Error e ->
        e = Workload.RecursionError).
Proof.
  split; [| split].
  - intro r. apply quick_sort_sound.
  - apply quick_sort_returns.
  - intro e. apply quick_sort_error.
Qed.

(** ** The sort benchmark: bubble sort *)

Section Bubble.

Import Workload SortBenchmark.

Lemma getitem_app (pre l : list Z) (k : nat) :
  getitem (pre ++ l) (List.length pre + k) = getitem l k.
Proof.
  unfold getitem. rewrite nth_error_app2 by lia.
  replace (List.length pre + k - List.length pre) with k by lia.
  reflexivity.
Qed.

Lemma setitem_app (pre l : list Z) (k : nat) (v : Z) :
  setitem (pre ++ l) (List.length pre + k) v
  = (r <~ setitem l k v;; Value (pre ++ r)%list).
Proof.
  induction pre as [| a pre IH]; simpl.
  - destruct (setitem l k v); reflexivity.
  - rewrite IH. destruct (setitem l k v); reflexivity.
Qed.

Lemma getitem_app0 (pre l : list Z) :
  getitem (pre ++ l) (List.length pre) = getitem l 0.
Proof.
  rewrite <- (getitem_app pre l 0), Nat.add_0_r. reflexivity.
Qed.

Lemma setitem_app0 (pre l : list Z) (v : Z) :
  setitem (pre ++ l) (List.length pre) v
  = (r <~ setitem l 0 v;; Value (pre ++ r)%list).
Proof.
  rewrite <- (setitem_app pre l 0 v), Nat.add_0_r. reflexivity.
Qed.

(** A step at position [length pre] orders the two elements found there. *)
Lemma bubble_step_at (pre post : list Z) (x y : Z) :
  bubble_step (pre ++ x :: y :: post) (List.length pre)
  = Value (pre ++ (if (x >? y)%Z then y :: x :: post else x :: y :: post))%list.
Proof.
  unfold bubble_step.
  rewrite getitem_app0, getitem_app.
  change (getitem (x :: y :: post) 0) with (Value x).
  change (getitem (x :: y :: post) 1) with (Value y).
  cbn [bind].
  destruct (x >? y)%Z; [| reflexivity].
  rewrite setitem_app0.
  change (setitem (x :: y :: post) 0 y) with (Value (y :: y :: post)).
  cbn [bind].
  rewrite setitem_app.
  change (setitem (y :: y :: post) 1 x) with (Value (y :: x :: post)).
  reflexivity.
Qed.

(** The inner loop from position [length pre] on is a pass by the heads. *)
Lemma bubble_pass_heads (m : nat) :
  forall pre l : list Z, m <= List.length l - 1 ->
    for_range (List.length pre) m bubble_step (pre ++ l)%list
    = Value (pre ++ bubble m l)%list.
Proof.
  induction m as [| m IH]; intros pre l Hm.
  - destruct l as [| x [| y l]]; reflexivity.
  - destruct l as [| x [| y l]]; simpl in Hm; try lia.
    cbn [for_range]. rewrite bubble_step_at. cbn [bind bubble].
    destruct (x >? y)%Z.
    + replace (pre ++ y :: x :: l)%list with ((pre ++ [y]) ++ x :: l)%list
        by (rewrite <- app_assoc; reflexivity).
      replace (S (List.length pre)) with (List.length (pre ++ [y]))
        by (rewrite length_app; simpl; lia).
      rewrite IH by (simpl; lia). rewrite <- app_assoc. reflexivity.
    + replace (pre ++ x :: y :: l)%list with ((pre ++ [x]) ++ y :: l)%list
        by (rewrite <- app_assoc; reflexivity).
      replace (S (List.length pre)) with (List.length (pre ++ [x]))
        by (rewrite length_app; simpl; lia).
      rewrite IH by (simpl; lia). rewrite <- app_assoc. reflexivity.
Qed.

(** A pass that stops inside [l1] leaves what follows [l1] alone. *)
Lemma bubble_app (m : nat) :
  forall l1 l2 : list Z, m <= List.length l1 - 1 ->
    bubble m (l1 ++ l2)%list = (bubble m l1 ++ l2)%list.
Proof.
  induction m as [| m IH]; intros l1 l2 Hm.
  - destruct l1 as [| x [| y l1]]; simpl;
      destruct l2; reflexivity.
  - destruct l1 as [| x [| y l1]]; simpl in Hm; try lia.
    cbn [app bubble].
    destruct (x >? y)%Z.
    + rewrite (app_comm_cons l1 l2 x).
      rewrite (IH (x :: l1) l2) by (simpl; lia). reflexivity.
    + rewrite (app_comm_cons l1 l2 y).
      rewrite (IH (y :: l1) l2) by (simpl; lia). reflexivity.
Qed.

(** A full pass over [l] puts a greatest element last. *)
Lemma bubble_greatest_last (n : nat) :
  forall l, List.length l = S n ->
    exists (l' : list Z) (mx : Z),
      bubble n l = (l' ++ [mx])%list
      /\ Permutation (l' ++ [mx])%list l
      /\ forall x, In x l' -> (x <= mx)%Z.
Proof.
  induction n as [| n IH]; intros l Hlen.
  - destruct l as [| x [| y l]]; simpl in Hlen; try lia.
    exists [], x. repeat split; [apply Permutation_refl |].
    intros z [].
  - destruct l as [| x [| y l]]; simpl in Hlen; try lia.
    cbn [bubble].
    destruct (x >? y)%Z eqn:E.
    + rewrite Z.gtb_ltb in E. apply Z.ltb_lt in E.
      destruct (IH (x :: l)) as [l' [mx [Hb [Hp Hle]]]]; [simpl; lia |].
      exists (y :: l'), mx. rewrite Hb. split; [reflexivity |]. split.
      * simpl. apply Permutation_trans with (y :: x :: l).
        -- apply perm_skip. exact Hp.
        -- apply perm_swap.
      * assert (Hx : (x <= mx)%Z).
        { assert (Hin : In x (l' ++ [mx])%list)
            by (apply (Permutation_in _ (Permutation_sym Hp)); left;
                reflexivity).
          apply in_app_or in Hin. destruct Hin as [Hin | [<- | []]];
            [apply Hle; exact Hin | lia]. }
        intros z [<- | Hz]; [lia | apply Hle; exact Hz].
    + rewrite Z.gtb_ltb in E. apply Z.ltb_ge in E.
      destruct (IH (y :: l)) as [l' [mx [Hb [Hp Hle]]]]; [simpl; lia |].
      exists (x :: l'), mx. rewrite Hb. split; [reflexivity |]. split.
      * simpl. apply perm_skip. exact Hp.
      * assert (Hy : (y <= mx)%Z).
        { assert (Hin : In y (l' ++ [mx])%list)
            by (apply (Permutation_in _ (Permutation_sym Hp)); left;
                reflexivity).
          apply in_app_or in Hin. destruct Hin as [Hin | [<- | []]];
            [apply Hle; exact Hin | lia]. }
        intros z [<- | Hz]; [lia | apply Hle; exact Hz].
Qed.

(** After [start] passes the last [start] elements are in place: sorted,
    and not below any element before them. The remaining passes sort the
    rest. *)
Lemma bubble_passes (n count : nat) :
  forall (start : nat) (front back : list Z),
    start + count = n ->
    List.length front = count ->
    List.length back = start ->
    Sorted Z.le back ->
    (forall x y, In x front -> In y back -> (x <= y)%Z) ->
    exists r,
      for_range start count (bubble_pass n) (front ++ back)%list = Value r
      /\ Sorted Z.le r
      /\ Permutation r (front ++ back)%list.
Proof.
  induction count as [| count IH];
    intros start front back Hn Hf Hb Hs Hle.
  - destruct front; [| discriminate Hf].
    exists back. repeat split; [exact Hs | apply Permutation_refl].
  - cbn [for_range]. unfold bubble_pass at 1.
    replace (n - start - 1) with count by lia.
    assert (Hpass : for_range 0 count bubble_step (front ++ back)%list
                    = Value (bubble count (front ++ back)%list)).
    { apply (bubble_pass_heads count [] (front ++ back)%list).
      rewrite length_app. lia. }
    rewrite Hpass. cbn [bind].
    rewrite (bubble_app count front back) by lia.
    destruct (bubble_greatest_last count front Hf)
      as [front' [mx [-> [Hp Hmx]]]].
    rewrite <- app_assoc. cbn [app].
    assert (Hin : forall x, In x front' \/ x = mx -> In x front).
    { intros x Hx. apply (Permutation_in _ Hp). apply in_or_app.
      destruct Hx as [Hx | ->]; [left; exact Hx | right; left; reflexivity]. }
    destruct (IH (S start) front' (mx :: back)) as [r [Hr [Sr Pr]]].
    + lia.
    + apply Permutation_length in Hp. rewrite length_app in Hp.
      simpl in Hp. lia.
    + simpl. lia.
    + constructor; [exact Hs |].
      destruct back as [| y back]; constructor.
      apply Hle; [apply Hin; right; reflexivity | left; reflexivity].
    + intros x y Hx [<- | Hy]; [apply Hmx; exact Hx |].
      apply Hle; [apply Hin; left; exact Hx | exact Hy].
    + exists r. split; [exact Hr |]. split; [exact Sr |].
      apply Permutation_trans with (1 := Pr).
      change (front' ++ mx :: back)%list
        with (front' ++ [mx] ++ back)%list.
      rewrite app_assoc. apply Permutation_app_tail. exact Hp.
Qed.

End Bubble.

(** X13. [bubble_sort] never raises (no index it uses is out of range) and
    sorts: on any list it returns a sorted permutation of it. *)
Theorem bubble_sort_sorts (arr : list Z) :
  exists r,
    SortBenchmark.bubble_sort arr = Workload.Value r
    /\ Sorted Z.le r
    /\ Permutation r arr.
Proof.
  unfold SortBenchmark.bubble_sort.
  destruct (bubble_passes (List.length arr) (List.length arr) 0 arr [])
    as [r [Hr [Sr Pr]]]; try reflexivity.
  - constructor.
  - intros x y _ [].
  - rewrite app_nil_r in Hr, Pr. exists r. repeat split; assumption.
Qed.

(** ** The Fibonacci workload *)

Section Fib.

Import Workload Fibonacci.

(** The body of the loop of [fibonacci_iterative]. *)
Let step (ab : Z * Z) : Z * Z := let '(a, b) := ab in (b, (a + b)%Z).

Lemma loop_ignores_index (l : list Z) :
  forall s,
    fold_left (fun (ab : Z * Z) (_ : Z) =>
                 let '(a, b) := ab in (b, (a + b)%Z)) l s
    = Nat.iter (List.length l) step s.
Proof.
  induction l as [| x l IH]; intro s; [reflexivity |].
  cbn [fold_left List.length]. rewrite IH.
  rewrite Nat.iter_succ_r. reflexivity.
Qed.

Lemma range_length (lo hi : Z) :
  List.length (range lo hi) = Z.to_nat (hi - lo).
Proof.
  unfold range. rewrite length_map, length_seq. reflexivity.
Qed.

Lemma loop_step (k : nat) :
  fst (Nat.iter (S k) step (0%Z, 1%Z)) = snd (Nat.iter k step (0%Z, 1%Z))
  /\ snd (Nat.iter (S k) step (0%Z, 1%Z))
     = (fst (Nat.iter k step (0%Z, 1%Z))
        + snd (Nat.iter k step (0%Z, 1%Z)))%Z.
Proof.
  rewrite Nat.iter_succ.
  destruct (Nat.iter k step (0%Z, 1%Z)) as [a b]. split; reflexivity.
Qed.

(** From 1 on, the result is the second component after [n - 1] turns. *)
Lemma fibonacci_iterative_loop (n : Z) :
  (1 <= n)%Z ->
  fibonacci_iterative n
  = snd (Nat.iter (Z.to_nat (n - 1)) step (0%Z, 1%Z)).
Proof.
  intro Hn. unfold fibonacci_iterative.
  destruct (n <=? 1)%Z eqn:E.
  - apply Z.leb_le in E. replace n with 1%Z by lia. reflexivity.
  - rewrite loop_ignores_index, range_length.
    replace (n + 1 - 2)%Z with (n - 1)%Z by lia.
    destruct (Nat.iter (Z.to_nat (n - 1)) step (0%Z, 1%Z)). reflexivity.
Qed.

Lemma fibonacci_iterative_base (n : Z) :
  (n <= 1)%Z -> fibonacci_iterative n = n.
Proof.
  intro Hn. unfold fibonacci_iterative.
  apply Z.leb_le in Hn. rewrite Hn. reflexivity.
Qed.

Lemma fibonacci_iterative_rec (n : Z) :
  (1 < n)%Z ->
  fibonacci_iterative n
  = (fibonacci_iterative (n - 1) + fibonacci_iterative (n - 2))%Z.
Proof.
  intro Hn. rewrite !fibonacci_iterative_loop with (n := n) by lia.
  rewrite (fibonacci_iterative_loop (n - 1)) by lia.
  destruct (Z.eq_dec n 2) as [-> | Hne]; [reflexivity |].
  rewrite (fibonacci_iterative_loop (n - 2)) by lia.
  replace (Z.to_nat (n - 1)) with (S (S (Z.to_nat (n - 2 - 1)))) by lia.
  replace (Z.to_nat (n - 1 - 1)) with (S (Z.to_nat (n - 2 - 1))) by lia.
  destruct (loop_step (S (Z.to_nat (n - 2 - 1)))) as [_ ->].
  destruct (loop_step (Z.to_nat (n - 2 - 1))) as [-> _].
  lia.
Qed.





End Fib.

(** X14. [fibonacci_iterative] computes the recurrence that
    [fibonacci_memo] is written as: it returns [n] itself for every
    [n <= 1], negative numbers included, and for [n > 1] the sum of its
    results on [n - 1] and [n - 2]. *)
Theorem fibonacci_iterative_recurrence (n : Z) :
  ((n <= 1)%Z -> Fibonacci.fibonacci_iterative n = n)
  /\ ((1 < n)%Z ->
      Fibonacci.fibonacci_iterative n
      = (Fibonacci.fibonacci_iterative (n - 1)
         + Fibonacci.fibonacci_iterative (n - 2))%Z).
Proof.
  split; [apply fibonacci_iterative_base | apply fibonacci_iterative_rec].
Qed.



(** ** The workloads and [serve], evaluated *)

Example bubble_sort_sample :
  SortBenchmark.bubble_sort [5; 1; 4; 1; 3]%Z
  = Workload.Value [1; 1; 3; 4; 5]%Z.
Proof. reflexivity. Qed.

Example merge_sample :
  SortBenchmark.merge [1; 4; 4]%Z [2; 4; 9]%Z
  = Workload.Value [1; 2; 4; 4; 4; 9]%Z.
Proof. reflexivity. Qed.

Example merge_sort_sample :
  SortBenchmark.merge_sort 4 [5; 1; 4; 1; 3]%Z
  = Workload.Value [1; 1; 3; 4; 5]%Z.
Proof. reflexivity. Qed.

Example merge_sort_too_deep :
  SortBenchmark.merge_sort 3 [5; 1; 4; 1; 3]%Z
  = Workload.Error Workload.RecursionError.
Proof. reflexivity. Qed.

Example quick_sort_sample :
  SortBenchmark.quick_sort 3 [5; 1; 4; 1; 3]%Z
  = Workload.Value [1; 1; 3; 4; 5]%Z.
Proof. reflexivity. Qed.

Example quick_sort_too_deep :
  SortBenchmark.quick_sort 1 [2; 1]%Z
  = Workload.Error Workload.RecursionError.
Proof. reflexivity. Qed.

Example fibonacci_iterative_sample :
  map Fibonacci.fibonacci_iterative [-3; 0; 1; 2; 10; 90]%Z
  = [-3; 0; 1; 1; 55; 2880067194370816120]%Z.
Proof. reflexivity. Qed.

Example fibonacci_memo_too_deep :
  Fibonacci.fibonacci_memo 3 5 []
  = (Workload.Error Workload.RecursionError, []).
Proof. reflexivity. Qed.

Example fibonacci_memo_warm :
  Fibonacci.fibonacci_memo 1 5 [(4, 3); (3, 2)]%Z
  = (Workload.Value 5%Z, [(5, 5); (4, 3); (3, 2)]%Z).
Proof. reflexivity. Qed.

Example serve_interrupted :
  Serve.serve (Serve.returns 8 ++ [Some Serve.KeyboardInterrupt; None])%list
  = ((Serve.setup
      ++ [Serve.time_sleep 3600; Serve.time_sleep 3600;
          Serve.time_sleep 3600; Serve.server_stop 0])%list,
     Serve.Returned).
Proof. reflexivity. Qed.

Example serve_port_taken :
  Serve.serve (Serve.returns 4 ++ [Some Serve.OtherException])%list
  = ([Serve.ThreadPoolExecutor 8; Serve.grpc_server;
      Serve.PlannerServicer_init; Serve.add_PlannerServicer_to_server;
      Serve.add_insecure_port "[::]:50051"],
     Serve.Raised Serve.OtherException).
Proof. reflexivity. Qed.

Example serve_interrupted_early :
  Serve.serve (Serve.returns 5 ++ [Some Serve.KeyboardInterrupt])%list
  = (Serve.setup, Serve.Raised Serve.KeyboardInterrupt).
Proof. reflexivity. Qed.
